(** * phl-airflow: the file transfer plugin

    A shallow embedding of [plugins/file_transfer_plugin.py]: the hook
    classes that give local disk, FTP, SFTP and S3 one file interface, and
    the operators and sensors built on them.

    Python values are kept as the code has them: [str] is [string], [bytes]
    is [list byte], [None]-or-[str] is [option string], an [int] is [Z].
    Exceptions are values of [exn]; a method that touches the outside
    (local disk, a remote server, the log) is a function from a [World] to
    a result and the [World] it leaves behind, also when it raises. *)

From stdpp Require Import gmap strings list fin_maps.
From Stdlib Require Import ZArith Ascii String Strings.Byte.

Local Open Scope string_scope.
Local Open Scope list_scope.
Local Open Scope Z_scope.

Set Warnings "-register-all".

(** ** Python exceptions and results *)

Inductive exn : Type :=
| KeyError (key : string)
| NotImplementedError (msg : string)
| FileExistsError (path : string)
| AirflowException (msg : string)
| TypeError (msg : string)
| NameError (name : string)
| AttributeError (msg : string)
| OSError (errno : Z) (path : string)
| SameFileError (src dst : string).

Inductive result (A : Type) : Type :=
| Ok (a : A)
| Raise (e : exn).

Arguments Ok {A} a.
Arguments Raise {A} e.

Definition is_Ok {A} (r : result A) : bool :=
  match r with Ok _ => true | Raise _ => false end.

(** [errno] constants used below. *)
Definition ENOENT : Z := 2.
Definition EEXIST : Z := 17.
Definition ENOTDIR : Z := 20.
Definition EISDIR : Z := 21.

(** ** Strings

    The few [str] methods and [os.path] functions the plugin calls. *)

Module Str.

Definition startswith (s pre : string) : bool := String.prefix pre s.

(** [c in s] for a one-character [c]. *)
Fixpoint contains (c : ascii) (s : string) : bool :=
  match s with
  | EmptyString => false
  | String d r => Ascii.eqb c d || contains c r
  end.

(** [s.rstrip('/')] *)
Fixpoint rstrip_slash (s : string) : string :=
  match s with
  | EmptyString => EmptyString
  | String c r =>
      match rstrip_slash r with
      | EmptyString => if Ascii.eqb c "/" then EmptyString else String c EmptyString
      | r' => String c r'
      end
  end.

(** [s == '/' * len(s)] *)
Fixpoint all_slashes (s : string) : bool :=
  match s with
  | EmptyString => true
  | String c r => Ascii.eqb c "/" && all_slashes r
  end.

(** [(p[:i], p[i:])] for [i = p.rfind('/') + 1]. *)
Fixpoint cut_last_slash (p : string) : string * string :=
  match p with
  | EmptyString => (EmptyString, EmptyString)
  | String c r =>
      let '(h, t) := cut_last_slash r in
      match h with
      | EmptyString =>
          if Ascii.eqb c "/" then (String c EmptyString, r)
          else (EmptyString, String c t)
      | _ => (String c h, t)
      end
  end.

(** [posixpath.split]: the head loses its trailing slashes unless it is
    made of slashes only. *)
Definition split (p : string) : string * string :=
  let '(head, tail) := cut_last_slash p in
  (if negb (String.eqb head "") && negb (all_slashes head)
   then rstrip_slash head else head, tail).

(** [posixpath.dirname] *)
Definition dirname (p : string) : string := fst (split p).

(** [sep.join(l)] *)
Fixpoint join (sep : string) (l : list string) : string :=
  match l with
  | [] => ""
  | [x] => x
  | x :: r => x +:+ sep +:+ join sep r
  end.

(** [repr] of a [str] without characters that need escaping, and of a
    list of them, as [str.format] prints a list. *)
Definition repr (s : string) : string := "'" +:+ s +:+ "'".
Definition repr_list (l : list string) : string :=
  "[" +:+ join ", " (map repr l) +:+ "]".

(** [p.split('/')] *)
Fixpoint split_slash (p : string) : list string :=
  match p with
  | EmptyString => [EmptyString]
  | String c r =>
      if Ascii.eqb c "/" then EmptyString :: split_slash r
      else match split_slash r with
           | x :: xs => String c x :: xs
           | [] => [String c EmptyString]
           end
  end.

(** A path in the one spelling that names its file: it begins with a
    slash, it does not end with one, and every name between two slashes is
    a name, neither empty nor [.] nor [..]. It is an absolute path that
    [posixpath.normpath] leaves as it is; the root is not among them. *)
Definition canonical (p : string) : bool :=
  match split_slash p with
  | EmptyString :: names =>
      negb (bool_decide (names = [])) &&
      forallb (λ n, negb (String.eqb n "") && negb (String.eqb n ".") &&
                    negb (String.eqb n "..")) names
  | _ => false
  end.

(** [str(x)] for [x] either [None] or a [str]. *)
Definition of_option (o : option string) : string :=
  match o with Some s => s | None => "None" end.

End Str.

(** ** Python objects

    The values whose run-time type decides what the code does: the operand
    of a [+], the target of an attribute lookup. *)

Inductive pyobj : Type :=
| PNone
| PInt (z : Z)
| PStr (s : string)
| PBytes (b : list byte)
| PTuple (items : list pyobj)
| PMethod (name : string).

Definition type_name (o : pyobj) : string :=
  match o with
  | PNone => "NoneType"
  | PInt _ => "int"
  | PStr _ => "str"
  | PBytes _ => "bytes"
  | PTuple _ => "tuple"
  | PMethod _ => "builtin_function_or_method"
  end.

(** [a + b]: defined between two values of one sequence or number type,
    a [TypeError] otherwise (its message in the wording of Python 3.6). *)
Definition py_add (a b : pyobj) : result pyobj :=
  match a, b with
  | PStr x, PStr y => Ok (PStr (x +:+ y))
  | PBytes x, PBytes y => Ok (PBytes (x ++ y))
  | PInt x, PInt y => Ok (PInt (x + y))
  | PTuple x, PTuple y => Ok (PTuple (x ++ y))
  | PStr _, _ => Raise (TypeError ("must be str, not " +:+ type_name b))
  | _, _ => Raise (TypeError ("unsupported operand type(s) for +: '" +:+
                              type_name a +:+ "' and '" +:+ type_name b +:+ "'"))
  end.

(** The attributes of a tuple are its two methods. *)
Definition tuple_methods : list string := ["count"; "index"].

(** [o.attr] on a built-in value: tuples answer for their methods, and
    nothing here carries data attributes such as [name]. *)
Definition getattr (o : pyobj) (attr : string) : result pyobj :=
  match o with
  | PTuple _ =>
      if bool_decide (attr ∈ tuple_methods) then Ok (PMethod attr)
      else Raise (AttributeError ("'tuple' object has no attribute '" +:+ attr +:+ "'"))
  | _ => Raise (AttributeError ("'" +:+ type_name o +:+ "' object has no attribute '" +:+
                                attr +:+ "'"))
  end.

(** ** The world outside the interpreter *)

(** A local path names a regular file with its bytes, or a directory.
    The disk is the map from the paths that name something to what they
    name. It has no links, and it is keyed by paths as the code writes
    them: the functions below take a path as it is written and stand for
    the calls of the code on paths in their canonical spelling
    ([Str.canonical]), where two paths are the same file when they are the
    same string. Other spellings of a file ([/tmp//f], [/tmp/d/], [/d/..])
    are resolved by the operating system and are not modelled. *)
Inductive Node : Type :=
| File (content : list byte)
| Dir.

(** One entry of a remote listing ([paramiko.SFTPAttributes]). *)
Record SFTPAttributes : Type := {
  filename : string;
  st_mode : Z;
}.

(** A remote server: the listing of each directory and the bytes of each
    file, both by the name a client that has just logged in gives them. A
    name that is no key of [listings] is no directory of the server.
    [s3_connect] is what connecting to S3 with the credentials of this
    connection raises, if anything: the constructor of Airflow's [S3Hook]
    connects, and what [boto] then does is decided outside the plugin. *)
Record Server : Type := {
  host : string;
  listings : gmap string (list SFTPAttributes);
  blobs : gmap string (list byte);
  s3_connect : option exn;
}.

Record World : Type := {
  fs : gmap string Node;            (* the local file system, by path *)
  next_fd : Z;                      (* the next free file descriptor *)
  servers : gmap string Server;     (* Airflow connection id -> server *)
  logs : list string;               (* what logging.info has printed *)
  stdin : list byte;                (* standard input of this process *)
  stdout : list byte;               (* standard output of this process *)
}.

Definition set_fs (f : gmap string Node → gmap string Node) (w : World) : World :=
  {| fs := f (fs w); next_fd := next_fd w; servers := servers w;
     logs := logs w; stdin := stdin w; stdout := stdout w |}.

Definition set_logs (f : list string → list string) (w : World) : World :=
  {| fs := fs w; next_fd := next_fd w; servers := servers w;
     logs := f (logs w); stdin := stdin w; stdout := stdout w |}.

Definition set_next_fd (f : Z → Z) (w : World) : World :=
  {| fs := fs w; next_fd := f (next_fd w); servers := servers w;
     logs := logs w; stdin := stdin w; stdout := stdout w |}.

Definition set_stdout (f : list byte → list byte) (w : World) : World :=
  {| fs := fs w; next_fd := next_fd w; servers := servers w;
     logs := logs w; stdin := stdin w; stdout := f (stdout w) |}.

(** ** Computations that may raise

    [M S A]: run from a state [S], end in a value or an exception, and in
    any case in a state. *)

Definition M (S A : Type) : Type := S → result A * S.

#[global] Instance M_ret S : MRet (M S) := λ A a s, (Ok a, s).

#[global] Instance M_bind S : MBind (M S) := λ A B f m s,
  match m s with
  | (Ok a, s') => f a s'
  | (Raise e, s') => (Raise e, s')
  end.

Definition raise {S A} (e : exn) : M S A := λ s, (Raise e, s).
Definition get {S} : M S S := λ s, (Ok s, s).
Definition gets {S A} (f : S → A) : M S A := λ s, (Ok (f s), s).
Definition modify {S} (f : S → S) : M S unit := λ s, (Ok tt, f s).

(** A result computed without the state, brought into [M]. *)
Definition lift {S A} (r : result A) : M S A := λ s, (r, s).

(** [try: m  except <any> as e: h e] *)
Definition try_except {S A} (m : M S A) (h : exn → M S A) : M S A := λ s,
  match m s with
  | (Ok a, s') => (Ok a, s')
  | (Raise e, s') => h e s'
  end.

(** [try: m  finally: c] *)
Definition finally {S A} (m : M S A) (c : M S unit) : M S A := λ s,
  let '(r, s') := m s in
  match c s' with
  | (Ok _, s'') => (r, s'')
  | (Raise e, s'') => (Raise e, s'')
  end.

(** A computation on the second component of a pair of states. *)
Definition on_snd {S T A} (m : M T A) : M (S * T) A := λ st,
  let '(r, t') := m st.2 in (r, (st.1, t')).

(** [logging.info(msg)] *)
Definition logging_info (msg : string) : M World unit :=
  modify (set_logs (λ l, l ++ [msg])).

(** ** The local file system: [os], [os.path], [shutil], [tempfile]

    Paths are compared as written: the model holds one name per file. *)

(** [os.path.exists(path)] and [os.path.isdir(path)], of a path in its
    canonical spelling: what the path names is what the disk has under it. *)
Definition path_exists (path : string) (w : World) : bool :=
  match fs w !! path with Some _ => true | None => false end.

Definition isdir (path : string) (w : World) : bool :=
  match fs w !! path with Some Dir => true | _ => false end.

(** The error, if any, of creating an entry called [path]: the directory
    it goes into has to be there, the working directory and the root are. *)
Definition parent_error (path : string) (w : World) : option exn :=
  let d := Str.dirname path in
  if String.eqb d "" || Str.all_slashes d then None
  else match fs w !! d with
       | Some Dir => None
       | Some (File _) => Some (OSError ENOTDIR path)
       | None => Some (OSError ENOENT path)
       end.

(** [open(path, 'wb')]: the file is created, or emptied. *)
Definition open_wb (path : string) : M World unit :=
  w ← get;
  if String.eqb path "" then raise (OSError ENOENT path)
  else match fs w !! path with
       | Some Dir => raise (OSError EISDIR path)
       | _ => match parent_error path w with
              | Some e => raise e
              | None => modify (set_fs (insert path (File [])))
              end
       end.

(** [f.write(data)] on the open file called [path]. *)
Definition file_write (path : string) (data : list byte) : M World unit :=
  modify (set_fs (alter (λ n, match n with
                             | File c => File (c ++ data)
                             | Dir => Dir
                             end) path)).

(** [open(path, 'rb').read()] *)
Definition read_file (path : string) : M World (list byte) :=
  w ← get;
  match fs w !! path with
  | Some (File c) => mret c
  | Some Dir => raise (OSError EISDIR path)
  | None => raise (OSError ENOENT path)
  end.

(** [shutil.copyfile(src, dst)]. It refuses to copy a file onto itself;
    on canonical paths that is when the two are the same string. *)
Definition copyfile (src dst : string) : M World unit :=
  w ← get;
  if String.eqb src dst && path_exists src w then raise (SameFileError src dst)
  else
    c ← read_file src;
    open_wb dst;;
    file_write dst c.

(** [os.unlink(path)] *)
Definition unlink (path : string) : M World unit :=
  w ← get;
  match fs w !! path with
  | Some (File _) => modify (set_fs (delete path))
  | Some Dir => raise (OSError EISDIR path)
  | None => raise (OSError ENOENT path)
  end.

(** [path] with one slash at its end. *)
Definition as_dir (path : string) : string :=
  if String.eqb (Str.rstrip_slash path) path then path +:+ "/" else path.

(** Whether [name] lies below the directory [path]. *)
Definition below (path name : string) : bool :=
  String.prefix (as_dir path) name.

(** [shutil.rmtree(path)]: the directory goes with all that is below it. *)
Definition rmtree (path : string) : M World unit :=
  w ← get;
  match fs w !! path with
  | Some Dir =>
      modify (set_fs (filter (λ kv, kv.1 ≠ path ∧ below path kv.1 = false)))
  | Some (File _) => raise (OSError ENOTDIR path)
  | None => raise (OSError ENOENT path)
  end.

(** [os.mkdir(name)], of a path in its canonical spelling: it is taken
    when the disk has something under that string. *)
Definition mkdir (name : string) : M World unit :=
  w ← get;
  if String.eqb name "" then raise (OSError ENOENT name)
  else if path_exists name w then raise (OSError EEXIST name)
  else match parent_error (Str.rstrip_slash name) w with
       | Some e => raise e
       | None => modify (set_fs (insert name Dir))
       end.

(** [os.makedirs(name)], with [exist_ok] left at [False]: the missing
    ancestors first, then [name]. The recursion is on the head of the path,
    which is shorter; [fuel] bounds it by the length of the name. *)
Fixpoint os_makedirs (fuel : nat) (name : string) : M World unit :=
  let '(head0, tail0) := Str.split name in
  let '(head, tail) := if String.eqb tail0 "" then Str.split head0 else (head0, tail0) in
  w ← get;
  if negb (String.eqb head "") && negb (String.eqb tail "") && negb (path_exists head w)
  then
    match fuel with
    | O => raise (OSError ENOENT name)
    | S fuel' =>
        try_except (os_makedirs fuel' head)
          (λ e, match e with
                | OSError errno _ => if errno =? EEXIST then mret tt else raise e
                | _ => raise e
                end);;
        if String.eqb tail "." then mret tt else mkdir name
    end
  else mkdir name.

(** The plugin's [makedirs(path, exist_ok)]. *)
Definition makedirs (path : string) (exist_ok : bool) : M World bool :=
  try_except (os_makedirs (String.length path) path;; mret true)
    (λ e, match e with
          | OSError errno _ =>
              w ← get;
              if negb (exist_ok && (errno =? EEXIST) && isdir path w) then raise e
              else mret false
          | _ => raise e
          end).

(** [name] without the prefix [pre], when it has it. *)
Fixpoint strip_prefix (pre name : string) : option string :=
  match pre, name with
  | EmptyString, _ => Some name
  | String a p, String b n => if Ascii.eqb a b then strip_prefix p n else None
  | String _ _, EmptyString => None
  end.

(** [shutil.copytree(src, dst)]: [dst] is made, it must not exist, and
    receives a copy of all that is below [src]. *)
Definition copytree (src dst : string) : M World unit :=
  w ← get;
  match fs w !! src with
  | Some Dir =>
      os_makedirs (String.length dst) dst;;
      modify (set_fs (λ f,
        map_fold (λ name node acc,
                    match strip_prefix (as_dir src) name with
                    | Some rel => <[as_dir dst +:+ rel := node]> acc
                    | None => acc
                    end) f (fs w)))
  | Some (File _) => raise (OSError ENOTDIR src)
  | None => raise (OSError ENOENT src)
  end.

(** [tempfile.mkstemp()]: a new empty file under a name no file has, and
    the pair of its descriptor and its name. *)
Definition mkstemp : M World (Z * string) :=
  w ← get;
  let name := fresh (dom (fs w)) in
  modify (set_fs (insert name (File [])));;
  modify (set_next_fd Z.succ);;
  mret (next_fd w, name).

(** [with NamedTemporaryFile() as f: body f.name]: the file is there for
    the body and removed when the block is left, by return or by raise. *)
Definition with_NamedTemporaryFile {S A}
    (body : string → M (S * World) A) : M (S * World) A :=
  name ← on_snd (λ w, let name : string := fresh (dom (fs w)) in
                      (Ok name, set_fs (insert name (File [])) w));
  finally (body name) (on_snd (modify (set_fs (delete name)))).

(** Iterating over a binary file yields its lines, each with the line feed
    that ends it. *)
Fixpoint readlines (b : list byte) : list (list byte) :=
  match b with
  | [] => []
  | c :: r =>
      if Byte.eqb c x0a then [c] :: readlines r
      else match readlines r with
           | [] => [[c]]
           | l :: ls => (c :: l) :: ls
           end
  end.

(** ** [fnmatch] and [stat] *)

Module fnmatch.

(** What [fnmatch.translate] turns a pattern into, one item at a time:
    [*], [?], a bracketed set of character ranges, or the character. *)
Inductive glob : Type :=
| GStar
| GAny
| GSet (negated : bool) (ranges : list (ascii * ascii))
| GChar (c : ascii).

(** The text up to the first closing bracket, and what follows it. *)
Fixpoint scan_close (l : list ascii) : option (list ascii * list ascii) :=
  match l with
  | [] => None
  | c :: r =>
      if Ascii.eqb c "]" then Some ([], r)
      else match scan_close r with
           | Some (s, rest) => Some (c :: s, rest)
           | None => None
           end
  end.

(** After an opening bracket: an optional [!], a closing bracket that
    comes first counts as a member, then everything to the next one. With
    no closing bracket the opening one is an ordinary character. *)
Definition bracket (r : list ascii) : option (bool * list ascii * list ascii) :=
  let '(neg, r1) := match r with
                    | c :: r' => if Ascii.eqb c "!" then (true, r') else (false, r)
                    | [] => (false, r)
                    end in
  match r1 with
  | c :: r2 =>
      if Ascii.eqb c "]"
      then match scan_close r2 with
           | Some (s, rest) => Some (neg, c :: s, rest)
           | None => None
           end
      else match scan_close r1 with
           | Some (s, rest) => Some (neg, s, rest)
           | None => None
           end
  | [] => None
  end.

(** The members of a set: [a-b] is a range, any other character itself. *)
Fixpoint set_ranges (s : list ascii) : list (ascii * ascii) :=
  match s with
  | [] => []
  | a :: r =>
      match r with
      | dash :: b :: r' =>
          if Ascii.eqb dash "-" then (a, b) :: set_ranges r'
          else (a, a) :: set_ranges r
      | _ => (a, a) :: set_ranges r
      end
  end.

Fixpoint translate (fuel : nat) (pat : list ascii) : list glob :=
  match fuel with
  | O => []
  | S fuel' =>
      match pat with
      | [] => []
      | c :: r =>
          if Ascii.eqb c "*" then GStar :: translate fuel' r
          else if Ascii.eqb c "?" then GAny :: translate fuel' r
          else if Ascii.eqb c "["
          then match bracket r with
               | Some (neg, stuff, rest) =>
                   GSet neg (set_ranges stuff) :: translate fuel' rest
               | None => GChar c :: translate fuel' r
               end
          else GChar c :: translate fuel' r
      end
  end.

Definition in_ranges (c : ascii) (rs : list (ascii * ascii)) : bool :=
  existsb (λ r, (N_of_ascii r.1 <=? N_of_ascii c)%N &&
                (N_of_ascii c <=? N_of_ascii r.2)%N) rs.

(** Matching the whole name, as the compiled pattern does. *)
Fixpoint glob_match (p : list glob) (s : list ascii) : bool :=
  match p with
  | [] => match s with [] => true | _ :: _ => false end
  | GStar :: p' =>
      (fix star (s : list ascii) : bool :=
         glob_match p' s ||
         match s with [] => false | _ :: s' => star s' end) s
  | GAny :: p' =>
      match s with _ :: s' => glob_match p' s' | [] => false end
  | GSet neg rs :: p' =>
      match s with
      | c :: s' => xorb neg (in_ranges c rs) && glob_match p' s'
      | [] => false
      end
  | GChar c :: p' =>
      match s with
      | d :: s' => Ascii.eqb c d && glob_match p' s'
      | [] => false
      end
  end.

(** [fnmatch.fnmatch(name, pat)] on a POSIX system, where [normcase]
    changes nothing. *)
Definition fnmatch (name pat : string) : bool :=
  glob_match (translate (String.length pat) (list_ascii_of_string pat))
             (list_ascii_of_string name).

End fnmatch.

Module stat.

(** [0o170000], [0o040000] and [0o100000]. *)
Definition S_IFMT (mode : Z) : Z := Z.land mode 0xF000.
Definition S_IFDIR : Z := 0x4000.
Definition S_IFREG : Z := 0x8000.
Definition S_ISDIR (mode : Z) : bool := S_IFMT mode =? S_IFDIR.
Definition S_ISREG (mode : Z) : bool := S_IFMT mode =? S_IFREG.

End stat.

(** ** The hook classes and the registry *)

Inductive HookClass : Type :=
| CommonFTPHook
| CommonFTPSHook
| CommonS3Hook
| CommonFSHook.

Module CommonFileHook.

(** The dict literal of [by_type]. *)
Definition registry : gmap string HookClass :=
  <["ftp" := CommonFTPHook]>
    (<["sftp" := CommonFTPSHook]>
       (<["s3" := CommonS3Hook]>
          (<["local" := CommonFSHook]> ∅))).

(** [by_type(conn_type)]: subscripting the dict raises [KeyError] on a
    key it does not hold. *)
Definition by_type (conn_type : string) : result HookClass :=
  match registry !! conn_type with
  | Some cls => Ok cls
  | None => Raise (KeyError conn_type)
  end.

(** [parse_mode(mode)] *)
Record mode_params : Type := {
  is_binary : bool;
  can_read : bool;
  can_write : bool;
  replace : bool;
}.

Definition parse_mode (mode : string) : mode_params :=
  {| is_binary := Str.contains "b" mode;
     can_read := String.eqb mode "" || Str.startswith mode "r";
     can_write := Str.startswith mode "w" ||
                  Str.startswith mode "r+" ||
                  Str.startswith mode "a";
     replace := Str.startswith mode "w" |}.

(** The methods of the base class: each is [raise NotImplementedError]. *)
Definition not_implemented {S A} : M S A := raise (NotImplementedError "").

Definition download {S} (remotepath localpath : string) (replace : bool) : M S unit :=
  not_implemented.
Definition download_folder {S} (remotepath localpath : string) (replace : bool)
  : M S unit := not_implemented.
Definition delete {S} (remotepath : string) : M S unit := not_implemented.
Definition file_exists {S} (remotepath : string) : M S bool := not_implemented.
Definition folder_exists {S} (remotepath : string) : M S bool := not_implemented.

End CommonFileHook.


(** ** Hook objects *)

(** A [pysftp.Connection]: the server it has reached and the directory it
    is in, [.] being the one it logged into. *)
Record Connection : Type := {
  remote : Server;
  cwd : string;
}.

(** A hook object: its class, the connection id it was made with and the
    connection it keeps once it has one. *)
Record Hook : Type := {
  cls : HookClass;
  conn_id : option string;
  conn : option Connection;
}.

(** The object that [Cls(conn_id)] allocates, as its constructor finds
    it: the id it is made for and no connection. *)
Definition new_hook (c : HookClass) (cid : option string) : Hook :=
  {| cls := c; conn_id := cid; conn := None |}.

Definition set_conn (c : Connection) (st : Hook * World) : Hook * World :=
  ({| cls := cls st.1; conn_id := conn_id st.1; conn := Some c |}, st.2).

Definition log (msg : string) : M (Hook * World) unit := on_snd (logging_info msg).

(** [os.path.join(a, b)] *)
Definition path_join (a b : string) : string :=
  if Str.startswith b "/" then b
  else if String.eqb a "" || negb (String.eqb (Str.rstrip_slash a) a) then a +:+ b
  else a +:+ "/" +:+ b.

Fixpoint foreach {S A} (l : list A) (f : A → M S unit) : M S unit :=
  match l with
  | [] => mret tt
  | x :: r => f x;; foreach r f
  end.

Module BaseHook.

(** Airflow's [get_connection(conn_id)], which every hook inherits. It
    reads the environment variable named after [conn_id.upper()] before it
    looks the id up, so [None] fails there; an id that is not known is
    refused; and the host of the connection found is logged when it has
    one. *)
Definition get_connection (cid : option string) : M World Server :=
  match cid with
  | None => raise (AttributeError "'NoneType' object has no attribute 'upper'")
  | Some c =>
      w ← get;
      match servers w !! c with
      | Some srv =>
          (if String.eqb (host srv) "" then mret tt
           else logging_info ("Using connection to: " +:+ host srv));;
          mret srv
      | None => raise (AirflowException ("The conn_id `" +:+ c +:+ "` isn't defined"))
      end
  end.

End BaseHook.

(** Airflow's [S3Hook], of which the plugin runs the constructor:
    [CommonS3Hook.__init__] is [S3Hook.__init__(self, s3_conn_id=conn_id)],
    which looks the connection up and connects with what it holds. *)
Module S3Hook.

Definition __init__ (s3_conn_id : option string) : M World unit :=
  s3_conn ← BaseHook.get_connection s3_conn_id;
  match s3_connect s3_conn with
  | Some e => raise e
  | None => mret tt
  end.

End S3Hook.

(** The constructor of each class, run on the new object: the local hook's
    is [pass], the FTP and SFTP hooks' store the id, which the object has
    already, and the S3 hook's is [S3Hook]'s. *)
Definition construct (self : Hook) : M World unit :=
  match cls self with
  | CommonS3Hook => S3Hook.__init__ (conn_id self)
  | _ => mret tt
  end.

(** A method run on a hook, which is dropped after it. *)
Definition run_on {A} (self : Hook) (m : M (Hook * World) A) : M World A := λ w,
  let '(r, st) := m (self, w) in (r, st.2).

(** A method called on a hook made for the call, as every operator does:
    [Cls(conn_id).method(...)]. The constructor runs first. *)
Definition call {A} (self : Hook) (m : M (Hook * World) A) : M World A :=
  construct self;; run_on self m.

Module PySFTPHook.

(** [get_conn()]: connects on first use. *)
Definition get_conn : M (Hook * World) Connection :=
  st ← get;
  match conn st.1 with
  | Some c => mret c
  | None =>
      log ("Using Connection with ID " +:+ Str.of_option (conn_id st.1));;
      params ← on_snd (BaseHook.get_connection (conn_id st.1));
      log ("Establishing secure connection to " +:+ host params);;
      let c := {| remote := params; cwd := "." |} in
      modify (set_conn c);;
      mret c
  end.

(** The connection object, which is the one the hook keeps: what a method
    does to it is done to [self.conn]. *)
Definition the_conn : M (Hook * World) Connection :=
  st ← get;
  match conn st.1 with
  | Some c => mret c
  | None => raise (AttributeError "'NoneType' object has no attribute 'cwd'")
  end.

(** [conn.cwd(path)]: the server has to have the directory. *)
Definition conn_cwd (path : string) : M (Hook * World) unit :=
  c ← the_conn;
  match listings (remote c) !! path with
  | Some _ => modify (set_conn {| remote := remote c; cwd := path |})
  | None => raise (OSError ENOENT path)
  end.

(** [with conn.cd(remotepath): body]: into the directory, and back to
    where the connection was on the way out, whatever the way. *)
Definition conn_cd {A} (remotepath : string) (body : M (Hook * World) A)
  : M (Hook * World) A :=
  c ← the_conn;
  finally (conn_cwd remotepath;; body)
          (modify (set_conn {| remote := remote c; cwd := cwd c |})).

(** [conn.listdir_attr()]: the entries of the current directory. *)
Definition conn_listdir_attr : M (Hook * World) (list SFTPAttributes) :=
  c ← the_conn;
  match listings (remote c) !! cwd c with
  | Some l => mret l
  | None => raise (OSError ENOENT (cwd c))
  end.

(** [conn.getfo(remotepath, handle)], the handle being the open local
    file [localpath]. *)
Definition conn_getfo (remotepath localpath : string) : M (Hook * World) unit :=
  c ← the_conn;
  match blobs (remote c) !! remotepath with
  | Some data => on_snd (file_write localpath data)
  | None => raise (OSError ENOENT remotepath)
  end.

(** [retrieve_file(remote_full_path, local_full_path)], the second
    argument being a path. *)
Definition retrieve_file (remote_full_path local_full_path : string)
  : M (Hook * World) unit :=
  get_conn;;
  on_snd (open_wb local_full_path);;
  log ("Retrieving file from FTP: " +:+ remote_full_path);;
  conn_getfo remote_full_path local_full_path;;
  log ("Finished retrieving file from FTP: " +:+ remote_full_path).

(** [conn.get_d(remotedir, localdir)]: the regular files of the remote
    directory, each into the local one under its name. *)
Definition conn_get_d (remotedir localdir : string) : M (Hook * World) unit :=
  conn_cd remotedir
    (l ← conn_listdir_attr;
     foreach l (λ sattr,
       if stat.S_ISREG (st_mode sattr)
       then
         on_snd (open_wb (path_join localdir (filename sattr)));;
         conn_getfo (path_join remotedir (filename sattr))
                    (path_join localdir (filename sattr))
       else mret tt)).

Definition retrieve_folder (remote_full_path local_full_path : string)
  : M (Hook * World) unit :=
  get_conn;;
  log ("Retrieving files in folder from FTP: " +:+ remote_full_path);;
  conn_get_d remote_full_path local_full_path;;
  log ("Finished retrieving folder from FTP: " +:+ remote_full_path).

(** [_match_basename(dirname, basepattern, modefilter)] *)
Definition _match_basename (dirname basepattern : string)
    (modefilter : option (Z → bool)) : M (Hook * World) (list string) :=
  get_conn;;
  let modefilter := default (λ _, true) modefilter in
  log ("Changing into folder " +:+ dirname +:+ " to look for pattern " +:+
       basepattern);;
  basenames ← conn_cd dirname
    (l ← conn_listdir_attr;
     mret (filename <$>
           filter (λ attrs, modefilter (st_mode attrs) &&
                            fnmatch.fnmatch (filename attrs) basepattern = true) l));
  log ("Found the following files: " +:+ Str.repr_list basenames);;
  mret basenames.

(** [file_exists(remote_full_path)] *)
Definition file_exists (remote_full_path : string) : M (Hook * World) bool :=
  let '(pathhead, pathtail) := Str.split remote_full_path in
  basenames ← _match_basename pathhead pathtail (Some stat.S_ISREG);
  mret (0 <? Z.of_nat (List.length basenames)).

(** [folder_exists(remote_full_path)] *)
Definition folder_exists (remote_full_path : string) : M (Hook * World) bool :=
  let '(pathhead, pathtail) := Str.split (Str.rstrip_slash remote_full_path) in
  basenames ← _match_basename pathhead pathtail (Some stat.S_ISDIR);
  mret (0 <? Z.of_nat (List.length basenames)).

End PySFTPHook.

(** Airflow's [FTPHook], the base of [CommonFTPHook]. Of the methods the
    plugin calls on a hook it has [retrieve_file], which opens the local
    path for writing and fetches the remote file into it as the SFTP hook
    does after it; it has no [retrieve_folder], [delete], [file_exists] or
    [folder_exists]. *)
Module FTPHook.

Definition retrieve_file (remote_full_path local_full_path : string)
  : M (Hook * World) unit :=
  PySFTPHook.retrieve_file remote_full_path local_full_path.

End FTPHook.

(** [self.<attr>] on an object whose classes do not define [attr]. *)
Definition no_attribute {S A} (c : string) (attr : string) : M S A :=
  raise (AttributeError ("'" +:+ c +:+ "' object has no attribute '" +:+ attr +:+ "'")).

Definition class_name (c : HookClass) : string :=
  match c with
  | CommonFTPHook => "CommonFTPHook"
  | CommonFTPSHook => "CommonFTPSHook"
  | CommonS3Hook => "CommonS3Hook"
  | CommonFSHook => "CommonFSHook"
  end.

Module CommonFSHook.

Definition download (remotepath localpath : string) (replace : bool)
  : M (Hook * World) unit :=
  st ← get;
  if negb replace && path_exists localpath st.2
  then raise (FileExistsError localpath)
  else on_snd (copyfile remotepath localpath).

Definition download_folder (remotepath localpath : string) (replace : bool)
  : M (Hook * World) unit :=
  st ← get;
  (if path_exists localpath st.2
   then if replace then on_snd (rmtree localpath)
        else raise (FileExistsError localpath)
   else mret tt);;
  on_snd (copytree remotepath localpath).

Definition delete (path : string) (is_dir : option bool) : M (Hook * World) unit :=
  st ← get;
  let is_dir := default (isdir path st.2) is_dir in
  if is_dir then on_snd (rmtree path) else on_snd (unlink path).

Definition upload (localpath remotepath : string) (replace : bool)
  : M (Hook * World) unit :=
  st ← get;
  if negb replace && path_exists remotepath st.2
  then raise (FileExistsError remotepath)
  else on_snd (copyfile localpath remotepath).

End CommonFSHook.

Module CommonFTPHookMixin.

(** [self.retrieve_file] and [self.retrieve_folder], found in the class
    the mixin is combined with. *)
Definition self_retrieve_file (remotepath localpath : string)
  : M (Hook * World) unit :=
  st ← get;
  match cls st.1 with
  | CommonFTPSHook => PySFTPHook.retrieve_file remotepath localpath
  | CommonFTPHook => FTPHook.retrieve_file remotepath localpath
  | c => no_attribute (class_name c) "retrieve_file"
  end.

Definition self_retrieve_folder (remotepath localpath : string)
  : M (Hook * World) unit :=
  st ← get;
  match cls st.1 with
  | CommonFTPSHook => PySFTPHook.retrieve_folder remotepath localpath
  | c => no_attribute (class_name c) "retrieve_folder"
  end.

Definition download (remotepath localpath : string) (replace : bool)
  : M (Hook * World) unit :=
  st ← get;
  if negb replace && path_exists localpath st.2
  then raise (FileExistsError localpath)
  else
    let dirname := Str.dirname localpath in
    log ("Creating the folder " +:+ dirname +:+ ", if it does not exist");;
    created ← on_snd (makedirs dirname true);
    (if created : bool then log "Created!" else log "Already existed.");;
    self_retrieve_file remotepath localpath.

Definition download_folder (remotepath localpath : string) (replace : bool)
  : M (Hook * World) unit :=
  st ← get;
  (if path_exists localpath st.2
   then if replace then on_snd (rmtree localpath)
        else raise (FileExistsError localpath)
   else mret tt);;
  log ("Creating the folder " +:+ localpath +:+ ", if it does not exist");;
  created ← on_snd (makedirs localpath true);
  (if created : bool then log "Created!" else log "Already existed.");;
  self_retrieve_folder remotepath localpath.

(** The generator objects that [_open_for_read] and [_open_for_write]
    return when called: none of their body has run yet. *)
Inductive generator : Type :=
| _open_for_read (remotepath : string) (mode_params : CommonFileHook.mode_params)
| _open_for_write (remotepath : string) (mode_params : CommonFileHook.mode_params).

(** [open(remotepath, mode)]. The method is wrapped by [contextmanager]
    and has no [yield] of its own, so the call runs all of it: it raises,
    or hands the wrapper a generator to enter later, or [None]. *)
Definition open (remotepath : string) (mode : string) : result (option generator) :=
  let mode_params := CommonFileHook.parse_mode mode in
  if CommonFileHook.can_read mode_params && CommonFileHook.can_write mode_params
  then Raise (NotImplementedError "Cannot open a read/write FTP stream.")
  else if CommonFileHook.can_write mode_params &&
          negb (CommonFileHook.replace mode_params)
  then Raise (NotImplementedError "Cannot append to a file over FTP.")
  else if CommonFileHook.can_read mode_params
  then Ok (Some (_open_for_read remotepath mode_params))
  else if CommonFileHook.can_write mode_params
  then Ok (Some (_open_for_write remotepath mode_params))
  else Ok None.

End CommonFTPHookMixin.

(** ** Method resolution

    [CommonFTPHook (FTPHook, CommonFTPHookMixin)],
    [CommonFTPSHook (PySFTPHook, CommonFTPHookMixin)],
    [CommonS3Hook (S3Hook, CommonFileHook)], which defines [open] only, and
    [CommonFSHook (CommonFileHook)]: a method is the first one found along
    these bases, and the one of [CommonFileHook] when none of them has it. *)
Module hook.

Definition download (remotepath localpath : string) (replace : bool)
  : M (Hook * World) unit :=
  st ← get;
  match cls st.1 with
  | CommonFTPHook | CommonFTPSHook =>
      CommonFTPHookMixin.download remotepath localpath replace
  | CommonFSHook => CommonFSHook.download remotepath localpath replace
  | CommonS3Hook => CommonFileHook.download remotepath localpath replace
  end.

Definition download_folder (remotepath localpath : string) (replace : bool)
  : M (Hook * World) unit :=
  st ← get;
  match cls st.1 with
  | CommonFTPHook | CommonFTPSHook =>
      CommonFTPHookMixin.download_folder remotepath localpath replace
  | CommonFSHook => CommonFSHook.download_folder remotepath localpath replace
  | CommonS3Hook => CommonFileHook.download_folder remotepath localpath replace
  end.

Definition delete (path : string) : M (Hook * World) unit :=
  st ← get;
  match cls st.1 with
  | CommonFSHook => CommonFSHook.delete path None
  | _ => CommonFileHook.delete path
  end.

Definition file_exists (path : string) : M (Hook * World) bool :=
  st ← get;
  match cls st.1 with
  | CommonFTPSHook => PySFTPHook.file_exists path
  | _ => CommonFileHook.file_exists path
  end.

Definition folder_exists (path : string) : M (Hook * World) bool :=
  st ← get;
  match cls st.1 with
  | CommonFTPSHook => PySFTPHook.folder_exists path
  | _ => CommonFileHook.folder_exists path
  end.

End hook.

(** ** Operators *)

(** [not x] for [x] either [None] or a [str]. *)
Definition falsy (o : option string) : bool :=
  match o with
  | None => true
  | Some s => String.eqb s ""
  end.

(** [except <name>:] with a name that is bound nowhere in the module:
    the handler looks the name up to compare the exception with it, and
    that lookup raises [NameError] in place of what was being handled. *)
Definition except_unbound {S A} (name : string) : exn → M S A :=
  λ _, raise (NameError ("name '" +:+ name +:+ "' is not defined")).

(** A path argument that has to be a [str]. *)
Definition as_path {S} (o : option string) : M S string :=
  match o with
  | Some p => mret p
  | None => raise (TypeError "expected str, bytes or os.PathLike object, not NoneType")
  end.

Module FileDownloadOperator.

Record t : Type := {
  source_type : string;
  source_conn_id : option string;
  source_path : string;
  SourceHook : HookClass;
  dest_path : option string;
}.

Definition __init__ (source_type source_path : string)
    (source_conn_id dest_path : option string) : result t :=
  match CommonFileHook.by_type source_type with
  | Ok h => Ok {| source_type := source_type; source_conn_id := source_conn_id;
                  source_path := source_path; SourceHook := h;
                  dest_path := dest_path |}
  | Raise e => Raise e
  end.

Definition set_dest_path (self : t) (p : option string) : t :=
  {| source_type := source_type self; source_conn_id := source_conn_id self;
     source_path := source_path self; SourceHook := SourceHook self;
     dest_path := p |}.

(** [create_temp_dest()]. [dest] is the pair that [mkstemp] returns, a
    tuple; the [try] reads [dest.name] and calls [dest.close()]. *)
Definition create_temp_dest (self : t) : M World t :=
  self' ← try_except
    (made ← mkstemp;
     let dest := PTuple [PInt made.1; PStr made.2] in
     name ← lift (getattr dest "name");
     _ ← lift (getattr dest "close");
     mret (set_dest_path self (match name with PStr s => Some s | _ => None end)))
    (except_unbound "e");
  logging_info ("Created a temporary file for download at " +:+
                Str.of_option (dest_path self'));;
  mret self'.

Definition download_source (self : t) : M World unit :=
  logging_info ("Downloading file " +:+ source_path self +:+ " from " +:+
                source_type self +:+ " source " +:+
                Str.of_option (source_conn_id self) +:+ " to local file " +:+
                Str.of_option (dest_path self) +:+ ".");;
  call (new_hook (SourceHook self) (source_conn_id self))
       (dest ← as_path (dest_path self);
        hook.download (source_path self) dest true).

(** [execute(context)]: the value returned is [self.dest_path]. *)
Definition execute (self : t) : M World (option string) :=
  self ← (if falsy (dest_path self) then create_temp_dest self else mret self);
  download_source self;;
  mret (dest_path self).

End FileDownloadOperator.

Module FolderDownloadOperator.

Record t : Type := {
  source_type : string;
  source_conn_id : option string;
  source_path : string;
  SourceHook : HookClass;
  dest_path : option string;
}.

Definition __init__ (source_type source_path : string)
    (source_conn_id dest_path : option string) : result t :=
  match CommonFileHook.by_type source_type with
  | Ok h => Ok {| source_type := source_type; source_conn_id := source_conn_id;
                  source_path := source_path; SourceHook := h;
                  dest_path := dest_path |}
  | Raise e => Raise e
  end.

Definition set_dest_path (self : t) (p : option string) : t :=
  {| source_type := source_type self; source_conn_id := source_conn_id self;
     source_path := source_path self; SourceHook := SourceHook self;
     dest_path := p |}.

(** [create_temp_dest()]: the same body as in the file operator, with
    [mkstemp] too. *)
Definition create_temp_dest (self : t) : M World t :=
  self' ← try_except
    (made ← mkstemp;
     let dest := PTuple [PInt made.1; PStr made.2] in
     name ← lift (getattr dest "name");
     _ ← lift (getattr dest "close");
     mret (set_dest_path self (match name with PStr s => Some s | _ => None end)))
    (except_unbound "e");
  logging_info ("Created a temporary folder for download at " +:+
                Str.of_option (dest_path self'));;
  mret self'.

Definition download_source (self : t) : M World unit :=
  logging_info ("Downloading folder " +:+ source_path self +:+ " from " +:+
                source_type self +:+ " source " +:+
                Str.of_option (source_conn_id self) +:+ " to local folder " +:+
                Str.of_option (dest_path self) +:+ ".");;
  call (new_hook (SourceHook self) (source_conn_id self))
       (dest ← as_path (dest_path self);
        hook.download_folder (source_path self) dest true).

Definition execute (self : t) : M World (option string) :=
  self ← (if falsy (dest_path self) then create_temp_dest self else mret self);
  download_source self;;
  mret (dest_path self).

End FolderDownloadOperator.

(** A writable stream is the sequence of chunks written to it so far. *)
Definition dest_write {W} (chunk : list byte) : M (list (list byte) * W) unit :=
  modify (λ st, (st.1 ++ [chunk], st.2)).

Module FileTransferOperator.

Record t : Type := {
  source_type : string;
  source_conn_id : option string;
  source_path : string;
  SourceHook : HookClass;
  dest_type : string;
  dest_conn_id : option string;
  dest_path : string;
  DestHook : HookClass;
}.

Definition __init__ (source_type dest_type source_path dest_path : string)
    (source_conn_id dest_conn_id : option string) : result t :=
  match CommonFileHook.by_type source_type with
  | Raise e => Raise e
  | Ok sh =>
      match CommonFileHook.by_type dest_type with
      | Raise e => Raise e
      | Ok dh => Ok {| source_type := source_type; source_conn_id := source_conn_id;
                       source_path := source_path; SourceHook := sh;
                       dest_type := dest_type; dest_conn_id := dest_conn_id;
                       dest_path := dest_path; DestHook := dh |}
      end
  end.

(** [transfer(source, dest)], [source] being a binary stream that holds
    the bytes [source] and is iterated line by line. *)
Definition transfer (self : t) (source : list byte)
  : M (list (list byte) * World) unit :=
  on_snd (logging_info "Transferring data from source to destination.");;
  foreach (readlines source) dest_write.

End FileTransferOperator.

(** ** Child processes *)

(** What [subprocess.run] returns: with [stderr=subprocess.PIPE] and no
    text mode, [stderr] is a [bytes] object. *)
Record CompletedProcess : Type := {
  returncode : Z;
  stderr : list byte;
}.

(** One run of an executable, seen from outside: how it ended, what it
    wrote to its standard output, and the file system it left. *)
Record ChildRun : Type := {
  completed : CompletedProcess;
  written : list byte;
  fs_after : gmap string Node;
}.

(** The behaviour of the executables of a machine: from the argument
    vector, the bytes on standard input and the file system to a run, or to
    the exception of a failed launch. *)
Definition Executables : Type :=
  list string → list byte → gmap string Node → result ChildRun.

(** The bytes of a file that is open, read from its start. *)
Definition content_of (path : string) (w : World) : list byte :=
  match fs w !! path with
  | Some (File c) => c
  | _ => []
  end.

(** [subprocess.run(args, stdin=.., stdout=.., stderr=PIPE)]: a stream that
    is given is an open file positioned at its start; one that is [None] is
    the stream of this process. *)
Definition subprocess_run (exec : Executables) (args : list string)
    (stdin_file stdout_file : option string) : M World CompletedProcess :=
  w ← get;
  let input := match stdin_file with
               | Some f => content_of f w
               | None => stdin w
               end in
  child ← lift (exec args input (fs w));
  modify (set_fs (λ _, fs_after child));;
  match stdout_file with
  | Some f => file_write f (written child)
  | None => modify (set_stdout (λ out, out ++ written child))
  end;;
  mret (completed child).

Module FileTransformOperator.

Record t : Type := {
  base : FileTransferOperator.t;
  transform_script : string;
  use_stdin : bool;
  use_stdout : bool;
}.

(** [use_stdin] and [use_stdout] are [True] when not given. *)
Definition __init__ (transform_script : string) (use_stdin use_stdout : option bool)
    (source_type dest_type source_path dest_path : string)
    (source_conn_id dest_conn_id : option string) : result t :=
  match FileTransferOperator.__init__ source_type dest_type source_path dest_path
                                      source_conn_id dest_conn_id with
  | Raise e => Raise e
  | Ok b => Ok {| base := b; transform_script := transform_script;
                  use_stdin := default true use_stdin;
                  use_stdout := default true use_stdout |}
  end.

Section Transform.

Variable exec : Executables.

(** [transform(f_source, f_dest)], the two arguments being the temporary
    files, known here by their names. *)
Definition transform (self : t) (f_source f_dest : string) : M World unit :=
  let script_args :=
    [transform_script self] ++
    (if use_stdin self then [] else [f_source]) ++
    (if use_stdout self then [] else [f_dest]) in
  logging_info ("Running the transformation script command: " +:+
                Str.join " " script_args);;
  sp ← subprocess_run exec script_args
         (if use_stdin self then Some f_source else None)
         (if use_stdout self then Some f_dest else None);
  if 0 <? returncode sp
  then
    msg ← lift (py_add (PStr "Transform script failed ") (PBytes (stderr sp)));
    raise (AirflowException (match msg with PStr m => m | _ => "" end))
  else
    logging_info ("Transform script successful. Output temporarily located at " +:+
                  f_dest).

(** [transfer(source, dest)]: [source.read()] gives the bytes [source];
    [dest] is the stream in the state. Both temporary files are read from
    their start, after [seek(0)]. *)
Definition transfer (self : t) (source : list byte)
  : M (list (list byte) * World) unit :=
  with_NamedTemporaryFile (λ f_source,
    on_snd (logging_info ("Dumping source data to a file: " +:+ f_source));;
    on_snd (file_write f_source source);;
    with_NamedTemporaryFile (λ f_dest,
      on_snd (transform self f_source f_dest);;
      on_snd (logging_info "Transferring transformed data from to destination.");;
      st ← get;
      foreach (readlines (content_of f_dest st.2)) dest_write)).

End Transform.

End FileTransformOperator.

(** ** Sensors *)

Module FileAvailabilitySensor.

Record t : Type := {
  source_type : string;
  source_conn_id : option string;
  source_path : string;
  SourceHook : HookClass;
}.

(** The constructor takes a [dest_path] and does not keep it. *)
Definition __init__ (source_type source_path : string)
    (source_conn_id dest_path : option string) : result t :=
  match CommonFileHook.by_type source_type with
  | Ok h => Ok {| source_type := source_type; source_conn_id := source_conn_id;
                  source_path := source_path; SourceHook := h |}
  | Raise e => Raise e
  end.

Definition check_source (self : t) : M World bool :=
  logging_info ("Checking existence of file " +:+ source_path self +:+ " on " +:+
                source_type self +:+ " source " +:+
                Str.of_option (source_conn_id self) +:+ ".");;
  found ← call (new_hook (SourceHook self) (source_conn_id self))
               (hook.file_exists (source_path self));
  if found : bool
  then logging_info "File exist.";; mret true
  else logging_info "File does not exist.";; mret false.

Definition poke (self : t) : M World bool := check_source self.

End FileAvailabilitySensor.

(** The folder sensor is the file sensor with [check_source] overridden:
    its constructor and its [poke] are the inherited ones. *)
Module FolderAvailabilitySensor.

Definition t : Type := FileAvailabilitySensor.t.

Definition __init__ := FileAvailabilitySensor.__init__.

Definition check_source (self : t) : M World bool :=
  logging_info ("Checking existence of folder " +:+
                FileAvailabilitySensor.source_path self +:+ " on " +:+
                FileAvailabilitySensor.source_type self +:+ " source " +:+
                Str.of_option (FileAvailabilitySensor.source_conn_id self) +:+ ".");;
  found ← call (new_hook (FileAvailabilitySensor.SourceHook self)
                         (FileAvailabilitySensor.source_conn_id self))
               (hook.folder_exists (FileAvailabilitySensor.source_path self));
  if found : bool
  then logging_info "Folder does not exist.";; mret true
  else logging_info "Folder exists.";; mret false.

Definition poke (self : t) : M World bool := check_source self.

End FolderAvailabilitySensor.

(** ** Cleanup *)

Module CleanupOperator.

(** What the [paths] argument can be: one [str], a sequence of them, or a
    value that cannot be iterated, such as [None]. *)
Inductive paths_arg : Type :=
| OnePath (path : string)
| ManyPaths (l : list string)
| NotIterable.

Record t : Type := {
  conn_type : string;
  conn_id : option string;
  paths : paths_arg;
  ConnHook : HookClass;
}.

(** [conn_type] is ['local'] when not given; a [str] becomes the list of
    itself. *)
Definition __init__ (paths : paths_arg) (conn_id conn_type : option string)
  : result t :=
  let paths := match paths with
               | OnePath p => ManyPaths [p]
               | other => other
               end in
  let conn_type := default "local" conn_type in
  match CommonFileHook.by_type conn_type with
  | Ok h => Ok {| conn_type := conn_type; conn_id := conn_id; paths := paths;
                  ConnHook := h |}
  | Raise e => Raise e
  end.

(** The characters of a [str], which is what iterating over it yields. *)
Definition characters (s : string) : list string :=
  (λ c, String c EmptyString) <$> list_ascii_of_string s.

(** [execute(context)]: one hook for all the deletions. When [iter] raises
    [TypeError], the handler reads the name [paths], which [execute] does
    not bind. *)
Definition execute (self : t) : M World unit :=
  call (new_hook (ConnHook self) (conn_id self))
    match paths self with
    | NotIterable => raise (NameError "name 'paths' is not defined")
    | OnePath p =>
        foreach (characters p) (λ path,
          log ("Deleting path " +:+ path);; hook.delete path)
    | ManyPaths l =>
        foreach l (λ path,
          log ("Deleting path " +:+ path);; hook.delete path)
    end.

End CleanupOperator.

(** ** Worlds to run the code in *)

(** An empty disk, no server, nothing logged. *)
Definition bare_world : World :=
  {| fs := ∅; next_fd := 3; servers := ∅; logs := []; stdin := []; stdout := [] |}.

(** Two regular files ([0o100644]). *)
Definition reports : list SFTPAttributes :=
  [ {| filename := "report_2024.csv"; st_mode := 0x81A4 |};
    {| filename := "report_2023.csv"; st_mode := 0x81A4 |} ].

(** A server with the directory [/in] ([0o040755]) under its root, which
    holds the two reports. *)
Definition etl_server : Server :=
  {| host := "ftp.example.org";
     s3_connect := None;
     listings := <[ "/" := [ {| filename := "in"; st_mode := 0x41ED |} ] ]>
                   {[ "/in" := reports ]};
     blobs := ∅ |}.

Definition etl_world : World :=
  {| fs := ∅; next_fd := 3; servers := {[ "phl-ftp-etl" := etl_server ]};
     logs := []; stdin := []; stdout := [] |}.

(** A disk with the files [a] and [c] and a download made earlier, and no
    file [b]. *)
Definition staged_world : World :=
  {| fs := <[ "a" := File [] ]>
             (<[ "c" := File [x63] ]>
                {[ "/tmp/out.csv" := File [x6f; x6c; x64] ]});
     next_fd := 3; servers := {[ "phl-ftp-etl" := etl_server ]};
     logs := []; stdin := []; stdout := [] |}.


Definition failing_machine : Executables := λ args input files,
  Ok {| completed := {| returncode := 1; stderr := [x62; x6f; x6f; x6d] |};
        written := []; fs_after := files |}.

Definition killing_machine : Executables := λ args input files,
  Ok {| completed := {| returncode := -9; stderr := [] |};
        written := [x70; x61; x72; x74]; fs_after := files |}.

(** A transform step from one SFTP path to another, with the stream
    wiring left as it is by default. *)
Definition clean_step : FileTransformOperator.t :=
  {| FileTransformOperator.base :=
       {| FileTransferOperator.source_type := "sftp";
          FileTransferOperator.source_conn_id := Some "phl-ftp-etl";
          FileTransferOperator.source_path := "/in/report_2024.csv";
          FileTransferOperator.SourceHook := CommonFTPSHook;
          FileTransferOperator.dest_type := "sftp";
          FileTransferOperator.dest_conn_id := Some "phl-ftp-etl";
          FileTransferOperator.dest_path := "/out/report_2024.csv";
          FileTransferOperator.DestHook := CommonFTPSHook |};
     FileTransformOperator.transform_script := "phl-properties";
     FileTransformOperator.use_stdin := true;
     FileTransformOperator.use_stdout := true |}.

(** A server that also holds the bytes of one of the reports. *)
Definition data_server : Server :=
  {| host := "ftp.example.org";
     s3_connect := None;
     listings := <[ "/" := [ {| filename := "in"; st_mode := 0x41ED |} ] ]>
                   {[ "/in" := reports ]};
     blobs := {[ "/in/report_2024.csv" := [x31; x0a] ]} |}.

(** A disk with its root, a staging directory with a file and a
    subdirectory in it, and a file beside it. *)
Definition disk_world : World :=
  {| fs := <[ "/" := Dir ]>
             (<[ "/tmp" := Dir ]>
                (<[ "/tmp/stage" := Dir ]>
                   (<[ "/tmp/stage/a.csv" := File [x61] ]>
                      (<[ "/tmp/stage/sub" := Dir ]>
                         (<[ "/tmp/stage/sub/b.csv" := File [x62] ]>
                            {[ "/tmp/in.csv" := File [x69; x6e] ]})))));
     next_fd := 3; servers := {[ "phl-ftp-etl" := data_server ]};
     logs := []; stdin := []; stdout := [] |}.

(** A machine on which every command copies the file named by its first
    argument to the file named by its second, and a transform step that
    passes both temporary files by name. *)
Definition copy_machine : Executables := λ args input files,
  match args with
  | [_; a; b] =>
      match files !! a with
      | Some (File c) =>
          Ok {| completed := {| returncode := 0; stderr := [] |};
                written := []; fs_after := <[b := File c]> files |}
      | _ => Raise (OSError ENOENT a)
      end
  | _ => Raise (OSError ENOENT "")
  end.

Definition path_step : FileTransformOperator.t :=
  {| FileTransformOperator.base := FileTransformOperator.base clean_step;
     FileTransformOperator.transform_script := "phl-properties";
     FileTransformOperator.use_stdin := false;
     FileTransformOperator.use_stdout := false |}.

(** What the two checks answer on a new hook, as a function of the
    servers: over SFTP, whether the listing of the parent has an entry of
    the right kind whose name matches the last component; the other
    classes have the method of the base class, which the S3 hook reaches
    when its constructor has returned. *)
Definition check_answer (c : HookClass) (cid : option string) (folder : bool)
    (path : string) (w : World) : result bool :=
  let p := if folder then Str.rstrip_slash path else path in
  let kind := if folder then stat.S_ISDIR else stat.S_ISREG in
  match c with
  | CommonFTPSHook =>
      match (BaseHook.get_connection cid w).1 with
      | Raise e => Raise e
      | Ok srv =>
          match listings srv !! (Str.split p).1 with
          | None => Raise (OSError ENOENT (Str.split p).1)
          | Some l => Ok (existsb (λ a, kind (st_mode a) &&
                                   fnmatch.fnmatch (filename a) (Str.split p).2) l)
          end
      end
  | CommonS3Hook =>
      match (S3Hook.__init__ cid w).1 with
      | Raise e => Raise e
      | Ok _ => Raise (NotImplementedError "")
      end
  | _ => Raise (NotImplementedError "")
  end.

(** * Properties *)

(** ** The registry *)

Lemma by_type_ftp : CommonFileHook.by_type "ftp" = Ok CommonFTPHook.
Proof. reflexivity. Qed.

Lemma by_type_sftp : CommonFileHook.by_type "sftp" = Ok CommonFTPSHook.
Proof. reflexivity. Qed.

Lemma by_type_s3 : CommonFileHook.by_type "s3" = Ok CommonS3Hook.
Proof. reflexivity. Qed.

Lemma by_type_local : CommonFileHook.by_type "local" = Ok CommonFSHook.
Proof. reflexivity. Qed.

Lemma by_type_other (conn_type : string) :
  conn_type ≠ "ftp" → conn_type ≠ "sftp" → conn_type ≠ "s3" → conn_type ≠ "local" →
  CommonFileHook.by_type conn_type = Raise (KeyError conn_type).
Proof.
  intros H1 H2 H3 H4. unfold CommonFileHook.by_type, CommonFileHook.registry.
  rewrite !lookup_insert_ne by congruence.
  by rewrite lookup_empty.
Qed.

(** C10. [by_type] answers for the four tags ftp, sftp, s3 and local and
    for no other: on any other tag it raises [KeyError], and so does the
    constructor of every operator and sensor given that tag, for each of
    them looks its hook class up while it is built. The constructors are
    functions of their arguments alone: nothing of the world is read or
    written before the error. *)
Theorem by_type_exactly_four_tags (conn_type : string) :
  ((conn_type = "ftp" ∨ conn_type = "sftp" ∨ conn_type = "s3" ∨ conn_type = "local")
   ↔ ∃ cls, CommonFileHook.by_type conn_type = Ok cls) ∧
  (¬ (conn_type = "ftp" ∨ conn_type = "sftp" ∨ conn_type = "s3" ∨ conn_type = "local") →
   CommonFileHook.by_type conn_type = Raise (KeyError conn_type) ∧
   (∀ path cid dest,
      FileDownloadOperator.__init__ conn_type path cid dest = Raise (KeyError conn_type)) ∧
   (∀ path cid dest,
      FolderDownloadOperator.__init__ conn_type path cid dest = Raise (KeyError conn_type)) ∧
   (∀ other spath dpath scid dcid,
      FileTransferOperator.__init__ conn_type other spath dpath scid dcid
        = Raise (KeyError conn_type) ∧
      is_Ok (FileTransferOperator.__init__ other conn_type spath dpath scid dcid)
        = false) ∧
   (∀ script i o other spath dpath scid dcid,
      FileTransformOperator.__init__ script i o conn_type other spath dpath scid dcid
        = Raise (KeyError conn_type) ∧
      is_Ok (FileTransformOperator.__init__ script i o other conn_type
                                            spath dpath scid dcid) = false) ∧
   (∀ path cid dest,
      FileAvailabilitySensor.__init__ conn_type path cid dest = Raise (KeyError conn_type)) ∧
   (∀ path cid dest,
      FolderAvailabilitySensor.__init__ conn_type path cid dest = Raise (KeyError conn_type)) ∧
   (∀ paths cid,
      CleanupOperator.__init__ paths cid (Some conn_type) = Raise (KeyError conn_type))).
Proof.
  split.
  - split.
    + intros [-> | [-> | [-> | ->]]]; eexists; reflexivity.
    + intros [cls Hc].
      destruct (decide (conn_type = "ftp")) as [|N1]; [tauto|].
      destruct (decide (conn_type = "sftp")) as [|N2]; [tauto|].
      destruct (decide (conn_type = "s3")) as [|N3]; [tauto|].
      destruct (decide (conn_type = "local")) as [|N4]; [tauto|].
      rewrite by_type_other in Hc by assumption. discriminate.
  - intros Hn.
    assert (Hk : CommonFileHook.by_type conn_type = Raise (KeyError conn_type)).
    { apply by_type_other; intros ->; apply Hn; tauto. }
    split; [exact Hk|].
    unfold FileDownloadOperator.__init__, FolderDownloadOperator.__init__,
      FileAvailabilitySensor.__init__, FolderAvailabilitySensor.__init__,
      FileAvailabilitySensor.__init__, CleanupOperator.__init__,
      FileTransformOperator.__init__, FileTransferOperator.__init__.
    simpl. rewrite !Hk.
    repeat split; try reflexivity.
    all: destruct (CommonFileHook.by_type other); reflexivity.
Qed.

(** A tag outside the registry: the witness of the theorem above. *)
Lemma by_type_exactly_four_tags_witness :
  CommonFileHook.by_type "gcs" = Raise (KeyError "gcs") ∧
  FileDownloadOperator.__init__ "gcs" "/in/a.csv" None None = Raise (KeyError "gcs").
Proof.
  assert (Hn : ¬ ("gcs" = "ftp" ∨ "gcs" = "sftp" ∨ "gcs" = "s3" ∨ "gcs" = "local")).
  { intros [H | [H | [H | H]]]; discriminate H. }
  pose proof (proj2 (by_type_exactly_four_tags "gcs") Hn) as (H1 & H2 & _).
  split; [exact H1 | apply H2].
Defined.

(** ** Proof tools *)

Ltac unfold_M :=
  unfold call, run_on, construct, log, logging_info, except_unbound,
    CommonFileHook.not_implemented,
    mbind, M_bind, mret, M_ret, raise, get, gets, modify, lift,
    try_except, finally, on_snd.

(** ** Opening a stream over FTP *)

(** A mode that begins with [r+] is refused when [open] is called. *)
Lemma open_read_write_refused (remotepath rest : string) :
  CommonFTPHookMixin.open remotepath ("r+" +:+ rest) =
  Raise (NotImplementedError "Cannot open a read/write FTP stream.").
Proof. destruct rest; reflexivity. Qed.

(** A mode that begins with [a] is refused when [open] is called. *)
Lemma open_append_refused (remotepath rest : string) :
  CommonFTPHookMixin.open remotepath ("a" +:+ rest) =
  Raise (NotImplementedError "Cannot append to a file over FTP.").
Proof. destruct rest; reflexivity. Qed.

(** Whenever [parse_mode] reports a mode as readable and writable, or as
    writable without replacement, [open] raises. *)
Lemma open_refused_by_flags (remotepath mode : string) :
  let p := CommonFileHook.parse_mode mode in
  CommonFileHook.can_read p && CommonFileHook.can_write p = true ∨
  CommonFileHook.can_write p && negb (CommonFileHook.replace p) = true →
  is_Ok (CommonFTPHookMixin.open remotepath mode) = false.
Proof.
  intros p [H | H]; unfold CommonFTPHookMixin.open; fold p.
  - by rewrite H.
  - rewrite H. by destruct (CommonFileHook.can_read p && CommonFileHook.can_write p).
Qed.

(** C6. The modes [w+] and [rb+] ask Python's [open] for a stream that is
    read and written. [parse_mode] looks for the [+] right after an [r]
    only: [open] raises on neither, and hands back the generator of a
    write stream for the first and of a read stream for the second. *)
Theorem open_accepts_w_plus_and_rb_plus :
  CommonFTPHookMixin.open "/out/f.csv" "w+" =
    Ok (Some (CommonFTPHookMixin._open_for_write "/out/f.csv"
                {| CommonFileHook.is_binary := false;
                   CommonFileHook.can_read := false;
                   CommonFileHook.can_write := true;
                   CommonFileHook.replace := true |})) ∧
  CommonFTPHookMixin.open "/in/f.csv" "rb+" =
    Ok (Some (CommonFTPHookMixin._open_for_read "/in/f.csv"
                {| CommonFileHook.is_binary := true;
                   CommonFileHook.can_read := true;
                   CommonFileHook.can_write := false;
                   CommonFileHook.replace := false |})).
Proof. split; reflexivity. Qed.

(** ** Download operators without a destination *)

(** The world after [mkstemp]: one more file, empty, under a new name, and
    one more descriptor in use. *)
Lemma mkstemp_run (w : World) :
  mkstemp w =
  (Ok (next_fd w, fresh (dom (fs w))),
   set_next_fd Z.succ (set_fs (insert (fresh (dom (fs w))) (File [])) w)).
Proof. reflexivity. Qed.

Lemma file_create_temp_dest_raises (self : FileDownloadOperator.t) (w : World) :
  FileDownloadOperator.create_temp_dest self w =
  (Raise (NameError "name 'e' is not defined"),
   set_next_fd Z.succ (set_fs (insert (fresh (dom (fs w))) (File [])) w)).
Proof. reflexivity. Qed.

Lemma folder_create_temp_dest_raises (self : FolderDownloadOperator.t) (w : World) :
  FolderDownloadOperator.create_temp_dest self w =
  (Raise (NameError "name 'e' is not defined"),
   set_next_fd Z.succ (set_fs (insert (fresh (dom (fs w))) (File [])) w)).
Proof. reflexivity. Qed.

(** C3. With no destination path, [execute] of either download operator
    ends in [NameError]: [mkstemp] has made a regular file, for the folder
    operator too, the attribute [name] is asked of the tuple it returned,
    and the handler names an unbound [e]. No download is started (the log
    stays as it was, and only the temporary file is new) and no path is
    returned. *)
Theorem execute_without_dest_path_raises
    (f : FileDownloadOperator.t) (d : FolderDownloadOperator.t) (w : World) :
  falsy (FileDownloadOperator.dest_path f) = true →
  falsy (FolderDownloadOperator.dest_path d) = true →
  let w' := set_next_fd Z.succ (set_fs (insert (fresh (dom (fs w))) (File [])) w) in
  FileDownloadOperator.execute f w = (Raise (NameError "name 'e' is not defined"), w') ∧
  FolderDownloadOperator.execute d w = (Raise (NameError "name 'e' is not defined"), w') ∧
  logs w' = logs w ∧
  fs w' !! fresh (dom (fs w)) = Some (File []).
Proof.
  intros Hf Hd w'. repeat split.
  - unfold FileDownloadOperator.execute. rewrite Hf.
    unfold mbind at 1, M_bind. by rewrite file_create_temp_dest_raises.
  - unfold FolderDownloadOperator.execute. rewrite Hd.
    unfold mbind at 1, M_bind. by rewrite folder_create_temp_dest_raises.
  - subst w'. simpl. apply lookup_insert_eq.
Qed.

Lemma execute_without_dest_path_raises_witness :
  let f := {| FileDownloadOperator.source_type := "sftp";
              FileDownloadOperator.source_conn_id := Some "phl-ftp-etl";
              FileDownloadOperator.source_path := "/in/report_2024.csv";
              FileDownloadOperator.SourceHook := CommonFTPSHook;
              FileDownloadOperator.dest_path := None |} in
  let d := {| FolderDownloadOperator.source_type := "sftp";
              FolderDownloadOperator.source_conn_id := Some "phl-ftp-etl";
              FolderDownloadOperator.source_path := "/in";
              FolderDownloadOperator.SourceHook := CommonFTPSHook;
              FolderDownloadOperator.dest_path := Some "" |} in
  (FileDownloadOperator.execute f etl_world).1 =
    Raise (NameError "name 'e' is not defined") ∧
  (FolderDownloadOperator.execute d etl_world).1 =
    Raise (NameError "name 'e' is not defined").
Proof.
  intros f d.
  destruct (execute_without_dest_path_raises f d etl_world eq_refl eq_refl)
    as (H1 & H2 & _).
  rewrite H1, H2. split; reflexivity.
Defined.

(** ** Existence checks over SFTP *)

Lemma set_logs_nil (w : World) : set_logs (λ l, l ++ []) w = w.
Proof. destruct w. unfold set_logs. simpl. by rewrite app_nil_r. Qed.

Lemma set_logs_set_logs (a b : list string) (w : World) :
  set_logs (λ l, l ++ b) (set_logs (λ l, l ++ a) w) = set_logs (λ l, l ++ (a ++ b)) w.
Proof. unfold set_logs. simpl. by rewrite app_assoc. Qed.

(** [get_connection] reads the table of connections and writes to the
    log: what the log holds has no part in what it returns, and nothing
    else of the world changes. *)
Lemma get_connection_run (cid : option string) (w : World) :
  ∃ lines, ∀ pre,
    BaseHook.get_connection cid (set_logs (λ l, l ++ pre) w) =
    ((BaseHook.get_connection cid w).1, set_logs (λ l, l ++ (pre ++ lines)) w).
Proof.
  unfold BaseHook.get_connection. unfold_M.
  destruct cid as [k|]; simpl.
  - destruct (servers w !! k) as [srv|]; simpl.
    + destruct (String.eqb (host srv) ""); simpl.
      * exists []. intros pre. by rewrite app_nil_r.
      * eexists. intros pre. by rewrite set_logs_set_logs.
    + exists []. intros pre. by rewrite app_nil_r.
  - exists []. intros pre. by rewrite app_nil_r.
Qed.

Lemma get_connection_known (k : string) (srv : Server) (w : World) :
  servers w !! k = Some srv →
  (BaseHook.get_connection (Some k) w).1 = Ok srv.
Proof.
  intros Hs. unfold BaseHook.get_connection. unfold_M. rewrite Hs.
  by destruct (String.eqb (host srv) "").
Qed.

(** The constructors: of the world they change the log at most. *)
Lemma construct_run (self : Hook) (w : World) :
  ∃ lines, ∀ pre,
    construct self (set_logs (λ l, l ++ pre) w) =
    ((construct self w).1, set_logs (λ l, l ++ (pre ++ lines)) w).
Proof.
  unfold construct.
  destruct (cls self);
    try (exists []; intros pre; rewrite app_nil_r; reflexivity).
  destruct (get_connection_run (conn_id self) w) as (lines & Hrun).
  exists lines. intros pre. unfold S3Hook.__init__.
  unfold mbind, M_bind. rewrite (Hrun pre).
  pose proof (Hrun []) as H0. rewrite set_logs_nil in H0. rewrite H0. simpl.
  destruct (BaseHook.get_connection (conn_id self) w).1 as [srv|e]; [|reflexivity].
  unfold_M. by destruct (s3_connect srv).
Qed.

(** A class whose constructor does nothing. *)
Lemma call_run {A} (self : Hook) (m : M (Hook * World) A) (w : World) :
  cls self ≠ CommonS3Hook →
  call self m w = run_on self m w.
Proof.
  intros Hc. unfold call, construct. unfold_M.
  by destruct (cls self).
Qed.

(** A method that raises whatever the hook and the world: the call raises
    what the constructor raised, or else what the method raises. *)
Lemma call_raises {A} (self : Hook) (m : M (Hook * World) A) (e : exn) :
  (∀ w', m (self, w') = (Raise e, (self, w'))) →
  ∀ w, call self m w =
       (match (construct self w).1 with
        | Raise e' => Raise e'
        | Ok _ => Raise e
        end, (construct self w).2).
Proof.
  intros Hm w. unfold call, run_on. unfold mbind, M_bind.
  destruct (construct self w) as [[[]|e'] w']; [|reflexivity].
  by rewrite Hm.
Qed.

(** What [_match_basename] comes to on a hook that has no connection yet:
    the names of the listing that pass the filter and match the pattern,
    or the error of the connection or of the change of directory. The
    world gets log lines and nothing else, and what is in the log already
    has no part in the outcome. *)
Lemma match_basename_run (c : HookClass) (cid : option string) (w : World)
    (dirname pat : string) (mf : option (Z → bool)) :
  ∃ lines conn', ∀ pre,
    PySFTPHook._match_basename dirname pat mf
      (new_hook c cid, set_logs (λ l, l ++ pre) w) =
    (match (BaseHook.get_connection cid w).1 with
     | Raise e => Raise e
     | Ok srv =>
         match listings srv !! dirname with
         | None => Raise (OSError ENOENT dirname)
         | Some l =>
             Ok (filename <$>
                 filter (λ attrs, default (λ _, true) mf (st_mode attrs) &&
                                  fnmatch.fnmatch (filename attrs) pat = true) l)
         end
     end,
     ({| cls := c; conn_id := cid; conn := conn' |},
      set_logs (λ l, l ++ (pre ++ lines)) w)).
Proof.
  unfold PySFTPHook._match_basename, PySFTPHook.get_conn, BaseHook.get_connection,
    PySFTPHook.conn_cd, PySFTPHook.conn_cwd, PySFTPHook.conn_listdir_attr,
    PySFTPHook.the_conn, new_hook.
  unfold_M.
  destruct cid as [k|]; simpl.
  - destruct (servers w !! k) as [srv|] eqn:Hs; simpl.
    + destruct (String.eqb (host srv) "") eqn:Hh; simpl;
        destruct (listings srv !! dirname) as [l|] eqn:Hl; simpl;
        eexists _, _; intros pre; simpl; rewrite ?Hl; simpl;
        unfold set_logs, set_conn; simpl; rewrite <- !app_assoc; reflexivity.
    + eexists _, _. intros pre. unfold set_logs, set_conn; simpl.
      rewrite <- !app_assoc. reflexivity.
  - eexists _, _. intros pre. unfold set_logs, set_conn; simpl.
    rewrite <- !app_assoc. reflexivity.
Qed.

Lemma nonempty_filter_existsb {A B} (p : A → bool) (f : A → B) (l : list A) :
  (0 <? Z.of_nat (List.length (f <$> filter (λ a, p a = true) l))) = existsb p l.
Proof.
  induction l as [|a l IH]; [reflexivity|].
  rewrite filter_cons. simpl existsb.
  destruct (decide (p a = true)) as [E | E].
  - rewrite E. reflexivity.
  - apply not_true_is_false in E. rewrite E. exact IH.
Qed.

Lemma exists_check_run (c : HookClass) (cid : option string) (folder : bool)
    (path : string) (w : World) :
  ∃ lines, ∀ pre,
    call (new_hook c cid)
         (if folder then hook.folder_exists path else hook.file_exists path)
         (set_logs (λ l, l ++ pre) w) =
    (check_answer c cid folder path w, set_logs (λ l, l ++ (pre ++ lines)) w).
Proof.
  unfold check_answer.
  set (p := if folder then Str.rstrip_slash path else path).
  set (kind := if folder then stat.S_ISDIR else stat.S_ISREG).
  destruct c;
    try (exists []; intros pre; rewrite app_nil_r; by destruct folder).
  - destruct (match_basename_run CommonFTPSHook cid w (Str.split p).1 (Str.split p).2
                (Some kind)) as (lines & conn' & Hrun).
    exists lines. intros pre. specialize (Hrun pre).
    rewrite call_run by discriminate.
    assert (Hcall : run_on (new_hook CommonFTPSHook cid)
              (basenames ← PySFTPHook._match_basename (Str.split p).1 (Str.split p).2
                             (Some kind);
               mret (0 <? Z.of_nat (List.length basenames)))
              (set_logs (λ l, l ++ pre) w) =
            run_on (new_hook CommonFTPSHook cid)
              (if folder then hook.folder_exists path else hook.file_exists path)
              (set_logs (λ l, l ++ pre) w)).
    { subst p kind. unfold run_on, hook.file_exists, hook.folder_exists,
        PySFTPHook.file_exists, PySFTPHook.folder_exists.
      destruct folder; simpl.
      - by destruct (Str.split (Str.rstrip_slash path)).
      - by destruct (Str.split path). }
    rewrite <- Hcall. unfold run_on. unfold mbind at 1, M_bind. rewrite Hrun.
    destruct (BaseHook.get_connection cid w).1 as [srv|e]; [|reflexivity].
    destruct (listings srv !! (Str.split p).1) as [l|]; [|reflexivity].
    unfold mret, M_ret. simpl.
    by rewrite (nonempty_filter_existsb (λ a, kind (st_mode a) &&
                                              fnmatch.fnmatch (filename a) (Str.split p).2)).
  - destruct (construct_run (new_hook CommonS3Hook cid) w) as (lines & Hrun).
    exists lines. intros pre.
    rewrite (call_raises (new_hook CommonS3Hook cid) _ (NotImplementedError ""))
      by (intros w'; by destruct folder).
    rewrite (Hrun pre). simpl. reflexivity.
Qed.

Lemma exists_check_value (c : HookClass) (cid : option string) (folder : bool)
    (path : string) (w : World) :
  (call (new_hook c cid)
        (if folder then hook.folder_exists path else hook.file_exists path) w).1 =
  check_answer c cid folder path w.
Proof.
  destruct (exists_check_run c cid folder path w) as (lines & Hrun).
  specialize (Hrun []). rewrite set_logs_nil in Hrun. by rewrite Hrun.
Qed.

(** C2, as the code has it. Over SFTP, when the server has no directory
    of the name of the parent, [file_exists] and [folder_exists] raise the
    error of the failed change of directory; they do not return [False].
    The plain FTP hook has the methods of the base class, which raise
    [NotImplementedError] on every path. *)
Theorem existence_check_missing_parent_raises
    (w : World) (cid : string) (srv : Server) (path : string) :
  servers w !! cid = Some srv →
  (listings srv !! (Str.split path).1 = None →
   (call (new_hook CommonFTPSHook (Some cid)) (hook.file_exists path) w).1 =
   Raise (OSError ENOENT (Str.split path).1)) ∧
  (listings srv !! (Str.split (Str.rstrip_slash path)).1 = None →
   (call (new_hook CommonFTPSHook (Some cid)) (hook.folder_exists path) w).1 =
   Raise (OSError ENOENT (Str.split (Str.rstrip_slash path)).1)) ∧
  (call (new_hook CommonFTPHook (Some cid)) (hook.file_exists path) w).1 =
    Raise (NotImplementedError "") ∧
  (call (new_hook CommonFTPHook (Some cid)) (hook.folder_exists path) w).1 =
    Raise (NotImplementedError "").
Proof.
  intros Hs. repeat split.
  - intros Hl.
    rewrite (exists_check_value CommonFTPSHook (Some cid) false path w).
    unfold check_answer. by rewrite (get_connection_known _ _ _ Hs), Hl.
  - intros Hl.
    rewrite (exists_check_value CommonFTPSHook (Some cid) true path w).
    unfold check_answer. by rewrite (get_connection_known _ _ _ Hs), Hl.
Qed.

Lemma existence_check_missing_parent_raises_witness :
  (call (new_hook CommonFTPSHook (Some "phl-ftp-etl"))
        (hook.file_exists "/missing/x.csv") etl_world).1 =
    Raise (OSError ENOENT "/missing") ∧
  (call (new_hook CommonFTPSHook (Some "phl-ftp-etl"))
        (hook.folder_exists "/missing/sub/") etl_world).1 =
    Raise (OSError ENOENT "/missing").
Proof.
  destruct (existence_check_missing_parent_raises etl_world "phl-ftp-etl" etl_server
              "/missing/x.csv" eq_refl) as (H1 & _).
  destruct (existence_check_missing_parent_raises etl_world "phl-ftp-etl" etl_server
              "/missing/sub/" eq_refl) as (_ & H2 & _).
  split; [apply H1 | apply H2]; reflexivity.
Defined.

(** C2, as the claim has it, fails: the server of [etl_world] has no
    directory [/missing], and the checks of a path under [/missing] raise
    where the claim has them return [False]. *)
Lemma existence_check_missing_parent_not_false :
  listings etl_server !! "/missing" = None ∧
  (call (new_hook CommonFTPSHook (Some "phl-ftp-etl"))
        (hook.file_exists "/missing/x.csv") etl_world).1 ≠ Ok false ∧
  (call (new_hook CommonFTPSHook (Some "phl-ftp-etl"))
        (hook.folder_exists "/missing/sub") etl_world).1 ≠ Ok false.
Proof. vm_compute. repeat split; discriminate. Qed.

(** C7. With a directory that lists exactly the regular files
    [report_2024.csv] and [report_2023.csv], [file_exists] is true of the
    pattern [report_*.csv] in it and false of [invoice_*.csv]. For any path
    whose parent the server lists, the answer is computed from that listing
    alone: whether an entry is a regular file with a name that [fnmatch]es
    the last component. *)
Theorem file_exists_wildcard
    (w : World) (cid : string) (srv : Server) (dir p_report p_invoice : string)
    (m1 m2 : Z) :
  servers w !! cid = Some srv →
  listings srv !! dir = Some [ {| filename := "report_2024.csv"; st_mode := m1 |};
                               {| filename := "report_2023.csv"; st_mode := m2 |} ] →
  stat.S_ISREG m1 = true →
  stat.S_ISREG m2 = true →
  Str.split p_report = (dir, "report_*.csv") →
  Str.split p_invoice = (dir, "invoice_*.csv") →
  (call (new_hook CommonFTPSHook (Some cid)) (hook.file_exists p_report) w).1 = Ok true ∧
  (call (new_hook CommonFTPSHook (Some cid)) (hook.file_exists p_invoice) w).1 = Ok false ∧
  (∀ path l,
     listings srv !! (Str.split path).1 = Some l →
     (call (new_hook CommonFTPSHook (Some cid)) (hook.file_exists path) w).1 =
     Ok (existsb (λ a, stat.S_ISREG (st_mode a) &&
                       fnmatch.fnmatch (filename a) (Str.split path).2) l)).
Proof.
  intros Hs Hl Hm1 Hm2 Hr Hi.
  assert (Hgen : ∀ path l,
     listings srv !! (Str.split path).1 = Some l →
     (call (new_hook CommonFTPSHook (Some cid)) (hook.file_exists path) w).1 =
     Ok (existsb (λ a, stat.S_ISREG (st_mode a) &&
                       fnmatch.fnmatch (filename a) (Str.split path).2) l)).
  { intros path l Hpl.
    rewrite (exists_check_value CommonFTPSHook (Some cid) false path w).
    unfold check_answer. by rewrite (get_connection_known _ _ _ Hs), Hpl. }
  repeat split; [| |exact Hgen].
  - rewrite (Hgen p_report _ ltac:(rewrite Hr; exact Hl)).
    rewrite Hr. simpl. by rewrite Hm1.
  - rewrite (Hgen p_invoice _ ltac:(rewrite Hi; exact Hl)).
    rewrite Hi. simpl. by rewrite Hm1, Hm2.
Qed.

Lemma file_exists_wildcard_witness :
  (call (new_hook CommonFTPSHook (Some "phl-ftp-etl"))
        (hook.file_exists "/in/report_*.csv") etl_world).1 = Ok true ∧
  (call (new_hook CommonFTPSHook (Some "phl-ftp-etl"))
        (hook.file_exists "/in/invoice_*.csv") etl_world).1 = Ok false.
Proof.
  destruct (file_exists_wildcard etl_world "phl-ftp-etl" etl_server "/in"
              "/in/report_*.csv" "/in/invoice_*.csv" 0x81A4 0x81A4
              eq_refl eq_refl eq_refl eq_refl eq_refl eq_refl) as (H1 & H2 & _).
  split; assumption.
Defined.

(** ** The sensors *)

Lemma sensor_check_run (c : HookClass) (cid : option string) (folder : bool)
    (path : string) (w : World) (before yes no : string) :
  ∃ lines,
    (logging_info before;;
     found ← call (new_hook c cid)
                  (if folder then hook.folder_exists path else hook.file_exists path);
     if found : bool then logging_info yes;; mret true
     else logging_info no;; mret false) w =
    ((call (new_hook c cid)
           (if folder then hook.folder_exists path else hook.file_exists path) w).1,
     set_logs (λ l, l ++ lines) w).
Proof.
  destruct (exists_check_run c cid folder path w) as (lines & Hrun).
  pose proof (Hrun []) as H0. rewrite set_logs_nil in H0. rewrite H0.
  specialize (Hrun [before]).
  unfold mbind at 1, M_bind. unfold logging_info at 1, modify.
  unfold mbind at 1, M_bind. rewrite Hrun. simpl.
  match goal with |- context [(?r, set_logs _ w)] => destruct r as [[|]|e] end.
  - eexists. unfold_M. simpl. rewrite set_logs_set_logs. reflexivity.
  - eexists. unfold_M. simpl. rewrite set_logs_set_logs. reflexivity.
  - eexists. reflexivity.
Qed.

(** C9. [poke] of the file sensor returns what [file_exists] of a new
    hook of the configured class returns for the configured path, and
    [poke] of the folder sensor what [folder_exists] returns: [True] for
    [True], [False] for [False], and the exception when the check raises.
    The sensor is an argument, not a state: nothing of it can change. Of
    the world only the log does: disk, servers, descriptors and standard
    streams are after the call what they were before. *)
Theorem poke_is_the_existence_check (self : FileAvailabilitySensor.t) (w : World) :
  let sensor_hook := new_hook (FileAvailabilitySensor.SourceHook self)
                              (FileAvailabilitySensor.source_conn_id self) in
  (FileAvailabilitySensor.poke self w).1 =
    (call sensor_hook (hook.file_exists (FileAvailabilitySensor.source_path self)) w).1 ∧
  (FolderAvailabilitySensor.poke self w).1 =
    (call sensor_hook (hook.folder_exists (FileAvailabilitySensor.source_path self)) w).1 ∧
  (∃ lines, (FileAvailabilitySensor.poke self w).2 = set_logs (λ l, l ++ lines) w) ∧
  (∃ lines, (FolderAvailabilitySensor.poke self w).2 = set_logs (λ l, l ++ lines) w).
Proof.
  intros sensor_hook.
  unfold FileAvailabilitySensor.poke, FolderAvailabilitySensor.poke,
    FileAvailabilitySensor.check_source, FolderAvailabilitySensor.check_source.
  destruct (sensor_check_run (FileAvailabilitySensor.SourceHook self)
              (FileAvailabilitySensor.source_conn_id self) false
              (FileAvailabilitySensor.source_path self) w
              ("Checking existence of file " +:+ FileAvailabilitySensor.source_path self +:+
               " on " +:+ FileAvailabilitySensor.source_type self +:+ " source " +:+
               Str.of_option (FileAvailabilitySensor.source_conn_id self) +:+ ".")
              "File exist." "File does not exist.") as (l1 & H1).
  destruct (sensor_check_run (FileAvailabilitySensor.SourceHook self)
              (FileAvailabilitySensor.source_conn_id self) true
              (FileAvailabilitySensor.source_path self) w
              ("Checking existence of folder " +:+ FileAvailabilitySensor.source_path self +:+
               " on " +:+ FileAvailabilitySensor.source_type self +:+ " source " +:+
               Str.of_option (FileAvailabilitySensor.source_conn_id self) +:+ ".")
              "Folder does not exist." "Folder exists.") as (l2 & H2).
  simpl in H1, H2. rewrite H1, H2. simpl. subst sensor_hook.
  repeat split; eexists; reflexivity.
Qed.

(** The wording of the folder sensor's log is the reverse of its result:
    over a directory that is there it returns [True] and the last line it
    logs is that the folder does not exist. *)
Lemma folder_sensor_log_is_inverted :
  let self := {| FileAvailabilitySensor.source_type := "sftp";
                 FileAvailabilitySensor.source_conn_id := Some "phl-ftp-etl";
                 FileAvailabilitySensor.source_path := "/in/";
                 FileAvailabilitySensor.SourceHook := CommonFTPSHook |} in
  (FolderAvailabilitySensor.poke self etl_world).1 = Ok true ∧
  last (logs (FolderAvailabilitySensor.poke self etl_world).2) =
    Some "Folder does not exist.".
Proof. vm_compute. split; reflexivity. Qed.

(** ** Download onto an existing path *)

(** The constructor of the S3 hook, as a function of the table of
    connections: what it returns, and that it leaves the disk alone. *)
Lemma s3_construct_value (cid : option string) (w : World) :
  (construct (new_hook CommonS3Hook cid) w).1 =
    match cid with
    | None => Raise (AttributeError "'NoneType' object has no attribute 'upper'")
    | Some k =>
        match servers w !! k with
        | None => Raise (AirflowException ("The conn_id `" +:+ k +:+ "` isn't defined"))
        | Some srv => match s3_connect srv with Some e => Raise e | None => Ok tt end
        end
    end ∧
  fs (construct (new_hook CommonS3Hook cid) w).2 = fs w.
Proof.
  unfold construct, S3Hook.__init__, BaseHook.get_connection. unfold_M. simpl.
  destruct cid as [k|]; [|by split].
  destruct (servers w !! k) as [srv|]; [|by split].
  destruct (String.eqb (host srv) ""); simpl; by destruct (s3_connect srv).
Qed.

(** A method of the base class called on a new S3 hook: the call raises
    what the constructor raises, and [NotImplementedError] when the
    constructor returns. The disk is as it was. *)
Lemma s3_call_base_method {A} (cid : option string) (m : M (Hook * World) A)
    (w : World) :
  (∀ w', m (new_hook CommonS3Hook cid, w') =
         (Raise (NotImplementedError ""), (new_hook CommonS3Hook cid, w'))) →
  (call (new_hook CommonS3Hook cid) m w).1 =
    Raise (match cid with
           | None => AttributeError "'NoneType' object has no attribute 'upper'"
           | Some k =>
               match servers w !! k with
               | None => AirflowException ("The conn_id `" +:+ k +:+ "` isn't defined")
               | Some srv => default (NotImplementedError "") (s3_connect srv)
               end
           end) ∧
  fs (call (new_hook CommonS3Hook cid) m w).2 = fs w.
Proof.
  intros Hm. rewrite (call_raises _ _ _ Hm). simpl.
  destruct (s3_construct_value cid w) as [H1 H2]. rewrite H1. split; [|exact H2].
  destruct cid as [k|]; [|reflexivity].
  destruct (servers w !! k) as [srv|]; [|reflexivity].
  by destruct (s3_connect srv).
Qed.

(** C4, as the code has it. [download] with [replace=False] onto a local
    path that exists raises before anything is done to the disk, so the
    file has the bytes it had. For the local, FTP and SFTP hooks the
    exception is [FileExistsError], and the world after the call is the
    world before it. The S3 hook does not raise it: its constructor looks
    the connection up and connects, and raises when there is no id, when
    the id is not known or when connecting fails; when it returns, the
    hook has no [download] of its own and the call raises the
    [NotImplementedError] of the base class. *)
Theorem download_no_replace_keeps_existing
    (c : HookClass) (cid : option string) (w : World) (remotepath localpath : string) :
  path_exists localpath w = true →
  let r := call (new_hook c cid) (hook.download remotepath localpath false) w in
  match c with
  | CommonS3Hook =>
      r.1 = Raise (match cid with
                   | None => AttributeError "'NoneType' object has no attribute 'upper'"
                   | Some k =>
                       match servers w !! k with
                       | None => AirflowException ("The conn_id `" +:+ k +:+
                                                   "` isn't defined")
                       | Some srv => default (NotImplementedError "") (s3_connect srv)
                       end
                   end) ∧
      fs r.2 = fs w
  | _ => r = (Raise (FileExistsError localpath), w)
  end.
Proof.
  intros He r. subst r.
  destruct c;
    try (unfold hook.download, CommonFTPHookMixin.download, CommonFSHook.download;
         unfold_M; simpl; rewrite ?He; reflexivity).
  by apply s3_call_base_method.
Qed.

Lemma download_no_replace_keeps_existing_witness :
  call (new_hook CommonFTPSHook (Some "phl-ftp-etl"))
       (hook.download "/in/report_2024.csv" "/tmp/out.csv" false) staged_world =
  (Raise (FileExistsError "/tmp/out.csv"), staged_world).
Proof.
  exact (download_no_replace_keeps_existing CommonFTPSHook (Some "phl-ftp-etl")
           staged_world "/in/report_2024.csv" "/tmp/out.csv" eq_refl).
Defined.

(** C4, as the claim has it, fails for the S3 hook: the path exists, and
    what is raised is not [FileExistsError]. The connection id is not one
    of the table, and the constructor of the hook raises. *)
Lemma s3_download_not_FileExistsError :
  path_exists "/tmp/out.csv" staged_world = true ∧
  (call (new_hook CommonS3Hook (Some "phl-s3-etl"))
        (hook.download "bucket/key.csv" "/tmp/out.csv" false) staged_world).1 =
    Raise (AirflowException "The conn_id `phl-s3-etl` isn't defined") ∧
  (call (new_hook CommonS3Hook (Some "phl-s3-etl"))
        (hook.download "bucket/key.csv" "/tmp/out.csv" false) staged_world).1 ≠
    Raise (FileExistsError "/tmp/out.csv").
Proof. repeat split. discriminate. Qed.

(** ** Cleanup *)







(** ** The transform step *)

Lemma concat_readlines (b : list byte) : List.concat (readlines b) = b.
Proof.
  induction b as [|c r IH]; [reflexivity|].
  simpl. destruct (Byte.eqb c x0a).
  - simpl. by rewrite IH.
  - destruct (readlines r) as [|l ls]; simpl in *.
    + by rewrite <- IH.
    + by rewrite <- IH.
Qed.

Lemma foreach_dest_write {W} (l d : list (list byte)) (w : W) :
  foreach l dest_write (d, w) = (Ok tt, (d ++ l, w)).
Proof.
  revert d. induction l as [|x l IH]; intros d; simpl.
  - by rewrite app_nil_r.
  - unfold mbind, M_bind, dest_write at 1, modify. simpl.
    rewrite IH. by rewrite <- app_assoc.
Qed.

(** [transfer] around [transform]: the two temporary files are made, the
    first one filled; if [transform] raises, nothing is written to [dest];
    if it returns, the lines of the second file are; either way both files
    are removed. *)
Lemma transfer_run (exec : Executables) (self : FileTransformOperator.t)
    (source : list byte) (dest : list (list byte)) (w : World) :
  let f_source := fresh (dom (fs w)) in
  let w3 := set_fs (alter (λ n, match n with
                                | File c => File (c ++ source)
                                | Dir => Dir
                                end) f_source)
              (set_logs (λ l, l ++ ["Dumping source data to a file: " +:+ f_source])
                 (set_fs (insert f_source (File [])) w)) in
  let f_dest := fresh (dom (fs w3)) in
  let w4 := set_fs (insert f_dest (File [])) w3 in
  let remove w := set_fs (delete f_source) (set_fs (delete f_dest) w) in
  FileTransformOperator.transfer exec self source (dest, w) =
  match FileTransformOperator.transform exec self f_source f_dest w4 with
  | (Ok _, w5) =>
      (Ok tt,
       (dest ++ readlines (content_of f_dest w5),
        remove (set_logs
                  (λ l, l ++ ["Transferring transformed data from to destination."])
                  w5)))
  | (Raise e, w5) => (Raise e, (dest, remove w5))
  end.
Proof.
  intros f_source w3 f_dest w4 remove.
  unfold FileTransformOperator.transfer, with_NamedTemporaryFile, file_write.
  unfold_M. simpl.
  match goal with
  | |- context [FileTransformOperator.transform ?e ?s ?a ?b ?c] =>
      change (FileTransformOperator.transform e s a b c)
        with (FileTransformOperator.transform exec self f_source f_dest w4)
  end.
  destruct (FileTransformOperator.transform exec self f_source f_dest w4)
    as [[[]|e] w5]; simpl.
  - rewrite foreach_dest_write. reflexivity.
  - reflexivity.
Qed.

(** [transform] with both streams wired to the temporary files: the
    command reads the first file, its output goes to the second, and an
    exit status above zero leads to the concatenation of a [str] and the
    [bytes] of [stderr]. *)
Lemma transform_run (exec : Executables) (self : FileTransformOperator.t)
    (f_source f_dest : string) (w : World) :
  FileTransformOperator.use_stdin self = true →
  FileTransformOperator.use_stdout self = true →
  FileTransformOperator.transform exec self f_source f_dest w =
  let w1 := set_logs (λ l, l ++ ["Running the transformation script command: " +:+
                                 FileTransformOperator.transform_script self]) w in
  match exec [FileTransformOperator.transform_script self]
             (content_of f_source w) (fs w) with
  | Raise e => (Raise e, w1)
  | Ok child =>
      let w2 := set_fs (alter (λ n, match n with
                                    | File c => File (c ++ written child)
                                    | Dir => Dir
                                    end) f_dest)
                  (set_fs (λ _, fs_after child) w1) in
      if 0 <? returncode (completed child)
      then (Raise (TypeError "must be str, not bytes"), w2)
      else (Ok tt,
            set_logs (λ l, l ++ ["Transform script successful. " +:+
                                 "Output temporarily located at " +:+ f_dest]) w2)
  end.
Proof.
  intros Hi Ho.
  unfold FileTransformOperator.transform, subprocess_run, file_write.
  rewrite Hi, Ho. unfold_M. simpl.
  destruct (exec [FileTransformOperator.transform_script self]
              (content_of f_source w) (fs w)) as [child|e] eqn:He.
  - unfold content_of in *. simpl. rewrite He. simpl.
    destruct (0 <? returncode (completed child)); reflexivity.
  - unfold content_of in *. simpl. rewrite He. reflexivity.
Qed.

(** The first value of [transform], for any wiring of the streams, on a
    machine where every command ends with a status above zero. *)
Lemma transform_raises_TypeError (exec : Executables) (self : FileTransformOperator.t)
    (f_source f_dest : string) (w : World) :
  (∀ args input files, ∃ child,
     exec args input files = Ok child ∧ 0 < returncode (completed child)) →
  (FileTransformOperator.transform exec self f_source f_dest w).1 =
  Raise (TypeError "must be str, not bytes").
Proof.
  intros Hex.
  unfold FileTransformOperator.transform, subprocess_run, file_write.
  unfold_M. simpl.
  match goal with
  | |- context [exec ?a ?i ?f] => destruct (Hex a i f) as (child & He & Hrc); rewrite He
  end.
  apply Z.ltb_lt in Hrc.
  destruct (FileTransformOperator.use_stdout self); simpl; rewrite Hrc; reflexivity.
Qed.

(** C1. A command that exits with a status above zero makes [transfer]
    raise, and nothing is written to [dest]; but what is raised is the
    [TypeError] of adding the [bytes] of [stderr] to a [str], for any
    wiring of the streams: no [AirflowException] is made and the text of
    [stderr] is in no message. *)
Theorem transform_failure_raises_TypeError
    (exec : Executables) (self : FileTransformOperator.t)
    (source : list byte) (dest : list (list byte)) (w : World) :
  (∀ args input files, ∃ child,
     exec args input files = Ok child ∧ 0 < returncode (completed child)) →
  let r := FileTransformOperator.transfer exec self source (dest, w) in
  r.1 = Raise (TypeError "must be str, not bytes") ∧
  r.2.1 = dest ∧
  (∀ msg, r.1 ≠ Raise (AirflowException msg)).
Proof.
  intros Hex r.
  assert (Hr : r.1 = Raise (TypeError "must be str, not bytes") ∧ r.2.1 = dest).
  { subst r. rewrite transfer_run. simpl.
    match goal with
    | |- context [FileTransformOperator.transform exec self ?a ?b ?c] =>
        pose proof (transform_raises_TypeError exec self a b c Hex) as Ht;
        destruct (FileTransformOperator.transform exec self a b c) as [[[]|e] w5]
    end; simpl in Ht; [discriminate|].
    injection Ht as ->. split; reflexivity. }
  destruct Hr as [H1 H2]. rewrite H1. repeat split; [exact H2|]. discriminate.
Qed.

Lemma transform_failure_raises_TypeError_witness :
  let r := FileTransformOperator.transfer failing_machine clean_step [x61; x0a; x62]
             ([], staged_world) in
  r.1 = Raise (TypeError "must be str, not bytes") ∧ r.2.1 = [].
Proof.
  intros r.
  destruct (transform_failure_raises_TypeError failing_machine clean_step
              [x61; x0a; x62] [] staged_world) as (H1 & H2 & _).
  - intros args input files. eexists. split; [reflexivity|]. simpl. lia.
  - split; assumption.
Defined.

(** A command killed by a signal has a negative [returncode], which is not
    above zero: the step goes on and copies what the command had written. *)
Lemma transform_killed_child_passes :
  let r := FileTransformOperator.transfer killing_machine clean_step [x61; x0a; x62]
             ([], staged_world) in
  r.1 = Ok tt ∧ r.2.1 = [[x70; x61; x72; x74]].
Proof. vm_compute. split; reflexivity. Qed.

Lemma fresh_lookup (m : gmap string Node) : m !! fresh (dom m) = None.
Proof. apply not_elem_of_dom. apply is_fresh. Qed.




(** ** Paths and patterns, on examples *)

Example canonical_paths :
  Str.canonical "/tmp/stage/a.csv" = true ∧
  Str.canonical "/tmp//a.csv" = false ∧
  Str.canonical "/tmp/stage/" = false ∧
  Str.canonical "/tmp/new/.." = false ∧
  Str.canonical "./a.csv" = false ∧
  Str.canonical "a.csv" = false ∧
  Str.canonical "/" = false.
Proof. repeat split. Qed.

Example split_plain : Str.split "report_*.csv" = ("", "report_*.csv").
Proof. reflexivity. Qed.

Example split_nested : Str.split "/in/2024//x.csv" = ("/in/2024", "x.csv").
Proof. reflexivity. Qed.

Example split_root : Str.split "/x" = ("/", "x").
Proof. reflexivity. Qed.

Example split_trailing : Str.split "a/b/" = ("a/b", "").
Proof. reflexivity. Qed.

Example fnmatch_star : fnmatch.fnmatch "report_2024.csv" "report_*.csv" = true.
Proof. reflexivity. Qed.

Example fnmatch_literal : fnmatch.fnmatch "report_2024.csv" "invoice_*.csv" = false.
Proof. reflexivity. Qed.

Example fnmatch_set : fnmatch.fnmatch "a]c" "a[]x]c" = true.
Proof. reflexivity. Qed.

Example fnmatch_negated_range : fnmatch.fnmatch "abc" "a[!a-c]c" = false.
Proof. reflexivity. Qed.

Example fnmatch_open_bracket : fnmatch.fnmatch "a[c" "a[c" = true.
Proof. reflexivity. Qed.

Example readlines_two : readlines [x61; x0a; x62] = [[x61; x0a]; [x62]].
Proof. reflexivity. Qed.

(** * Further properties of the plugin *)

(** ** Directories on the local disk *)

Lemma mkdir_existing (d : string) (w : World) :
  d ≠ "" → path_exists d w = true →
  mkdir d w = (Raise (OSError EEXIST d), w).
Proof.
  intros Hd He. unfold mkdir. unfold_M.
  apply String.eqb_neq in Hd. by rewrite Hd, He.
Qed.

(** [os.makedirs] of a path that exists, its parent being on the disk or
    the path a bare name: the error of [mkdir], and nothing made. *)
Lemma os_makedirs_existing (fuel : nat) (d : string) (w : World) :
  d ≠ "" → path_exists d w = true →
  (Str.split d).2 ≠ "" →
  (Str.split d).1 = "" ∨ path_exists (Str.split d).1 w = true →
  os_makedirs fuel d w = (Raise (OSError EEXIST d), w).
Proof.
  intros Hd He Ht Hh.
  destruct fuel; simpl; destruct (Str.split d) as [h t]; simpl in *;
    apply String.eqb_neq in Ht; rewrite Ht; unfold_M;
    (destruct Hh as [-> | Hh];
     [simpl; by apply mkdir_existing
     |rewrite Hh, andb_false_r; by apply mkdir_existing]).
Qed.

(** X1. The plugin's [makedirs] on a path that is on the disk already
    (with its parent there too): with [exist_ok] it returns [False] when
    the path is a directory, and raises the [EEXIST] error of [os.makedirs]
    when the path is a file or [exist_ok] is off. In every case the disk
    and the rest of the world are left as they were. *)
Theorem makedirs_existing_path (d : string) (exist_ok : bool) (w : World) :
  d ≠ "" → path_exists d w = true →
  (Str.split d).2 ≠ "" →
  (Str.split d).1 = "" ∨ path_exists (Str.split d).1 w = true →
  makedirs d exist_ok w =
  (if exist_ok && isdir d w then Ok false else Raise (OSError EEXIST d), w).
Proof.
  intros Hd He Ht Hh. unfold makedirs, try_except.
  unfold mbind at 1, M_bind.
  rewrite (os_makedirs_existing _ d w Hd He Ht Hh).
  unfold_M. simpl. rewrite andb_true_r.
  by destruct (exist_ok && isdir d w).
Qed.

Lemma makedirs_existing_path_witness :
  makedirs "/tmp/stage" true disk_world = (Ok false, disk_world) ∧
  makedirs "/tmp/in.csv" true disk_world =
    (Raise (OSError EEXIST "/tmp/in.csv"), disk_world).
Proof.
  split.
  - rewrite (makedirs_existing_path "/tmp/stage" true disk_world);
      [reflexivity | discriminate | reflexivity | discriminate | right; reflexivity].
  - rewrite (makedirs_existing_path "/tmp/in.csv" true disk_world);
      [reflexivity | discriminate | reflexivity | discriminate | right; reflexivity].
Defined.

(** ** Downloads *)

(** X2. Over FTP and SFTP, [download] to a local path that has no
    directory part (a bare file name) fails before the server is
    contacted: the directory to make is the empty string, [os.makedirs]
    refuses it with [ENOENT], and the error is not the [EEXIST] that
    [exist_ok] forgives. One line is logged and no file is made. *)
Theorem ftp_download_bare_name_fails
    (c : HookClass) (cid : option string) (w : World)
    (remotepath localpath : string) (replace : bool) :
  c = CommonFTPHook ∨ c = CommonFTPSHook →
  Str.dirname localpath = "" →
  replace = true ∨ path_exists localpath w = false →
  call (new_hook c cid) (hook.download remotepath localpath replace) w =
  (Raise (OSError ENOENT ""),
   set_logs (λ l, l ++ ["Creating the folder , if it does not exist"]) w).
Proof.
  intros Hc Hd Hr.
  assert (Hguard : negb replace && path_exists localpath w = false).
  { destruct Hr as [-> | ->]; [reflexivity | apply andb_false_r]. }
  destruct Hc as [-> | ->];
    unfold hook.download, CommonFTPHookMixin.download;
    rewrite Hd; unfold_M; simpl; rewrite Hguard; reflexivity.
Qed.

Lemma ftp_download_bare_name_fails_witness :
  (call (new_hook CommonFTPSHook (Some "phl-ftp-etl"))
        (hook.download "/in/report_2024.csv" "report.csv" true) disk_world).1 =
  Raise (OSError ENOENT "").
Proof.
  rewrite (ftp_download_bare_name_fails CommonFTPSHook (Some "phl-ftp-etl") disk_world
             "/in/report_2024.csv" "report.csv" true);
    [reflexivity | by right | reflexivity | by left].
Defined.

Lemma parent_error_isdir (path : string) (w : World) :
  isdir (Str.dirname path) w = true → parent_error path w = None.
Proof.
  unfold isdir, parent_error. intros H.
  destruct (String.eqb (Str.dirname path) "" || Str.all_slashes (Str.dirname path));
    [reflexivity|].
  by destruct (fs w !! Str.dirname path) as [[|]|].
Qed.

Lemma set_fs_set_fs (f g : gmap string Node → gmap string Node) (w : World) :
  set_fs g (set_fs f w) = set_fs (λ m, g (f m)) w.
Proof. reflexivity. Qed.

(** [copyfile] of a regular file onto a path that is free or a file, in
    a directory that exists. *)
Lemma copyfile_run (src dst : string) (data : list byte) (w : World) :
  fs w !! src = Some (File data) →
  src ≠ dst → dst ≠ "" →
  fs w !! dst ≠ Some Dir →
  isdir (Str.dirname dst) w = true →
  copyfile src dst w = (Ok tt, set_fs (insert dst (File data)) w).
Proof.
  intros Hs Hne Hd Hnd Hp.
  unfold copyfile, read_file, open_wb, file_write. unfold_M.
  apply String.eqb_neq in Hne, Hd. rewrite Hne. simpl. rewrite Hs, Hd.
  rewrite (parent_error_isdir dst w Hp).
  destruct (fs w !! dst) as [[c|]|]; [| by destruct Hnd |];
    unfold set_fs; simpl; by rewrite alter_insert_eq.
Qed.

(** X3. [download] of the local hook, for two paths in their canonical
    spelling, when the source is a regular file, the destination is
    another path that is no directory and lies in a directory that exists,
    and either [replace] is on or the destination is free: it returns, the
    destination holds the bytes of the source, whatever it held before,
    and nothing else on the disk or in the world has changed. *)
Theorem local_download_copies_bytes
    (cid : option string) (w : World) (remotepath localpath : string)
    (data : list byte) (replace : bool) :
  Str.canonical remotepath = true → Str.canonical localpath = true →
  fs w !! remotepath = Some (File data) →
  remotepath ≠ localpath → localpath ≠ "" →
  fs w !! localpath ≠ Some Dir →
  isdir (Str.dirname localpath) w = true →
  replace = true ∨ path_exists localpath w = false →
  call (new_hook CommonFSHook cid) (hook.download remotepath localpath replace) w =
  (Ok tt, set_fs (insert localpath (File data)) w).
Proof.
  intros _ _ Hs Hne Hd Hnd Hp Hr.
  assert (Hguard : negb replace && path_exists localpath w = false).
  { destruct Hr as [-> | ->]; [reflexivity | apply andb_false_r]. }
  unfold hook.download, CommonFSHook.download. unfold_M. simpl. rewrite Hguard.
  unfold on_snd. simpl. by rewrite (copyfile_run _ _ data w Hs Hne Hd Hnd Hp).
Qed.

Lemma local_download_copies_bytes_witness :
  let r := call (new_hook CommonFSHook None)
             (hook.download "/tmp/in.csv" "/tmp/stage/a.csv" true) disk_world in
  r.1 = Ok tt ∧ fs r.2 !! "/tmp/stage/a.csv" = Some (File [x69; x6e]).
Proof.
  intros r. subst r.
  rewrite (local_download_copies_bytes None disk_world "/tmp/in.csv" "/tmp/stage/a.csv"
             [x69; x6e] true);
    [split; reflexivity | reflexivity | reflexivity | reflexivity | discriminate
    | discriminate | discriminate | reflexivity | by left].
Defined.



(** X5. [download_folder] with [replace=False] onto a local path that
    exists raises before anything is done to the disk, as [download] does.
    The local, FTP and SFTP hooks raise [FileExistsError] and leave the
    world as it was. The S3 hook raises what its constructor raises (no
    id, an id that is not known, a failed connection) and, when the
    constructor returns, the [NotImplementedError] of the base class, for
    it has no [download_folder]. *)
Theorem download_folder_no_replace_keeps_existing
    (c : HookClass) (cid : option string) (w : World) (remotepath localpath : string) :
  path_exists localpath w = true →
  let r := call (new_hook c cid) (hook.download_folder remotepath localpath false) w in
  match c with
  | CommonS3Hook =>
      r.1 = Raise (match cid with
                   | None => AttributeError "'NoneType' object has no attribute 'upper'"
                   | Some k =>
                       match servers w !! k with
                       | None => AirflowException ("The conn_id `" +:+ k +:+
                                                   "` isn't defined")
                       | Some srv => default (NotImplementedError "") (s3_connect srv)
                       end
                   end) ∧
      fs r.2 = fs w
  | _ => r = (Raise (FileExistsError localpath), w)
  end.
Proof.
  intros He r. subst r.
  destruct c;
    try (unfold hook.download_folder, CommonFTPHookMixin.download_folder,
           CommonFSHook.download_folder;
         unfold_M; simpl; rewrite ?He; reflexivity).
  by apply s3_call_base_method.
Qed.

(** The SFTP hook onto a directory of the disk, and the S3 hook made for
    an id that the table of connections does not have. *)
Lemma download_folder_no_replace_keeps_existing_witness :
  call (new_hook CommonFTPSHook (Some "phl-ftp-etl"))
       (hook.download_folder "/in" "/tmp/stage" false) disk_world =
    (Raise (FileExistsError "/tmp/stage"), disk_world) ∧
  (call (new_hook CommonS3Hook (Some "phl-s3-etl"))
        (hook.download_folder "bucket/in" "/tmp/stage" false) disk_world).1 =
    Raise (AirflowException "The conn_id `phl-s3-etl` isn't defined").
Proof.
  split.
  - exact (download_folder_no_replace_keeps_existing CommonFTPSHook
             (Some "phl-ftp-etl") disk_world "/in" "/tmp/stage" eq_refl).
  - exact (proj1 (download_folder_no_replace_keeps_existing CommonS3Hook
                    (Some "phl-s3-etl") disk_world "bucket/in" "/tmp/stage" eq_refl)).
Defined.

(** [rmtree] of a directory: it returns, the directory and all that is
    below it are gone, and every other path is as it was. *)
Lemma rmtree_run (path : string) (w : World) :
  fs w !! path = Some Dir →
  ∃ w', rmtree path w = (Ok tt, w') ∧
        logs w' = logs w ∧ servers w' = servers w ∧
        (∀ p, p = path ∨ below path p = true → fs w' !! p = None) ∧
        (∀ q, q ≠ path → below path q = false → fs w' !! q = fs w !! q).
Proof.
  intros Hd. unfold rmtree. unfold_M. rewrite Hd.
  eexists. split; [reflexivity|]. simpl. repeat split.
  - intros p Hp. apply map_lookup_filter_None. right. intros x _ [H1 H2]. simpl in *.
    destruct Hp as [-> | Hp]; [by apply H1 | congruence].
  - intros q Hq Hb.
    destruct (fs w !! q) as [x|] eqn:E.
    + apply map_lookup_filter_Some. by split.
    + apply map_lookup_filter_None. by left.
Qed.



(** ** Deleting on the local disk *)

(** X7. [delete] of the local hook, for a path in its canonical spelling
    that lies in a directory of the disk, by what the path is: a path that
    is not on the disk raises [ENOENT] and changes nothing; a regular file
    is removed and nothing else; a directory is removed with all that is
    below it, and every path that is not below it is as it was. *)
Theorem local_delete_by_kind (cid : option string) (w : World) (path : string) :
  Str.canonical path = true →
  isdir (Str.dirname path) w = true →
  let r := call (new_hook CommonFSHook cid) (hook.delete path) w in
  match fs w !! path with
  | None => r = (Raise (OSError ENOENT path), w)
  | Some (File _) => r = (Ok tt, set_fs (delete path) w)
  | Some Dir =>
      r.1 = Ok tt ∧
      (∀ p, p = path ∨ below path p = true → fs r.2 !! p = None) ∧
      (∀ q, q ≠ path → below path q = false → fs r.2 !! q = fs w !! q)
  end.
Proof.
  intros _ _ r. subst r.
  unfold hook.delete, CommonFSHook.delete, isdir. unfold_M. simpl.
  destruct (fs w !! path) as [[c|]|] eqn:Hp; simpl.
  - unfold unlink. unfold_M. by rewrite Hp.
  - destruct (rmtree_run path w Hp) as (w' & Hrm & _ & _ & Hgone & Hkept).
    rewrite Hrm. simpl. auto.
  - unfold unlink. unfold_M. by rewrite Hp.
Qed.

(** ** Upload and download on the local disk *)

(** X8. On the local hook, [upload] of a file followed by [download] of
    what was uploaded gives a third path the bytes of the first: both
    calls return, and the disk afterwards is the disk before with the two
    new copies, the three paths being in their canonical spelling, each
    new path in a directory that exists and neither of them a directory. *)
Theorem local_upload_download_round_trip
    (cid : option string) (w : World) (localpath remotepath back : string)
    (data : list byte) :
  Str.canonical localpath = true → Str.canonical remotepath = true →
  Str.canonical back = true →
  fs w !! localpath = Some (File data) →
  localpath ≠ remotepath → remotepath ≠ back →
  remotepath ≠ "" → back ≠ "" →
  fs w !! remotepath ≠ Some Dir → fs w !! back ≠ Some Dir →
  isdir (Str.dirname remotepath) w = true →
  isdir (Str.dirname back) w = true →
  call (new_hook CommonFSHook cid)
       (CommonFSHook.upload localpath remotepath true;;
        CommonFSHook.download remotepath back true) w =
  (Ok tt, set_fs (λ m, <[back := File data]> (<[remotepath := File data]> m)) w).
Proof.
  intros _ _ _ Hl Hlr Hrb Hr Hb Hnr Hnb Hdr Hdb.
  set (w1 := set_fs (insert remotepath (File data)) w).
  assert (H1 : copyfile localpath remotepath w = (Ok tt, w1))
    by by apply copyfile_run.
  assert (H2 : copyfile remotepath back w1 =
               (Ok tt, set_fs (insert back (File data)) w1)).
  { apply copyfile_run; subst w1; simpl; try done.
    - apply lookup_insert_eq.
    - by rewrite lookup_insert_ne.
    - unfold isdir in *. simpl.
      destruct (decide (remotepath = Str.dirname back)) as [E | E].
      + rewrite <- E in Hdb. destruct (fs w !! remotepath) as [[|]|]; try done.
      + by rewrite lookup_insert_ne. }
  unfold CommonFSHook.upload, CommonFSHook.download. unfold_M. simpl.
  rewrite H1. simpl. rewrite H2. reflexivity.
Qed.

Lemma local_upload_download_round_trip_witness :
  let r := call (new_hook CommonFSHook None)
             (CommonFSHook.upload "/tmp/in.csv" "/tmp/stage/up.csv" true;;
              CommonFSHook.download "/tmp/stage/up.csv" "/tmp/back.csv" true)
             disk_world in
  r.1 = Ok tt ∧ fs r.2 !! "/tmp/back.csv" = Some (File [x69; x6e]).
Proof.
  intros r. subst r.
  rewrite (local_upload_download_round_trip None disk_world "/tmp/in.csv"
             "/tmp/stage/up.csv" "/tmp/back.csv" [x69; x6e]);
    [split; reflexivity | reflexivity | reflexivity | reflexivity | reflexivity
    | discriminate | discriminate | discriminate
    | discriminate | discriminate | discriminate | reflexivity | reflexivity].
Defined.

(** ** Opening, by the first characters of the mode *)

Lemma prefix_cons (a b : ascii) (s1 s2 : string) :
  String.prefix (String a s1) (String b s2) = Ascii.eqb a b && String.prefix s1 s2.
Proof.
  simpl. destruct (ascii_dec a b) as [-> | Hne].
  - by rewrite Ascii.eqb_refl.
  - apply Ascii.eqb_neq in Hne. by rewrite Hne.
Qed.

Lemma prefix_empty (s : string) : String.prefix "" s = true.
Proof. by destruct s. Qed.

(** X9. What [open] of the FTP mixin does with a mode is decided by how
    the mode begins: [r+] and [a] raise; the empty mode and any other mode
    that begins with [r] give the read generator; [w] gives the write
    generator; and a mode that begins with anything else, [x] for one,
    neither raises nor gives a generator: the call returns [None] to the
    [contextmanager] wrapper. *)
Theorem open_by_prefix (remotepath mode : string) :
  CommonFTPHookMixin.open remotepath mode =
  if Str.startswith mode "r+"
  then Raise (NotImplementedError "Cannot open a read/write FTP stream.")
  else if Str.startswith mode "a"
  then Raise (NotImplementedError "Cannot append to a file over FTP.")
  else if String.eqb mode "" || Str.startswith mode "r"
  then Ok (Some (CommonFTPHookMixin._open_for_read remotepath
                   (CommonFileHook.parse_mode mode)))
  else if Str.startswith mode "w"
  then Ok (Some (CommonFTPHookMixin._open_for_write remotepath
                   (CommonFileHook.parse_mode mode)))
  else Ok None.
Proof.
  unfold CommonFTPHookMixin.open, CommonFileHook.parse_mode, Str.startswith.
  cbv beta iota delta [CommonFileHook.can_read CommonFileHook.can_write
                       CommonFileHook.replace].
  destruct mode as [|c mode]; [reflexivity|].
  change (String.eqb (String c mode) "") with false.
  rewrite !prefix_cons, !prefix_empty.
  destruct (Ascii.eqb_spec "r" c) as [<- | Hr].
  - simpl. destruct mode as [|d mode]; [reflexivity|].
    rewrite prefix_cons, prefix_empty.
    destruct (Ascii.eqb "+" d); reflexivity.
  - destruct (Ascii.eqb_spec "w" c) as [<- | Hw]; [reflexivity|].
    destruct (Ascii.eqb_spec "a" c) as [<- | Ha]; reflexivity.
Qed.

(** ** Existence checks, further *)

Lemma translate_plain (s : string) (fuel : nat) :
  (String.length s ≤ fuel)%nat →
  Str.contains "*" s = false → Str.contains "?" s = false →
  Str.contains "[" s = false →
  fnmatch.translate fuel (list_ascii_of_string s) =
  fnmatch.GChar <$> list_ascii_of_string s.
Proof.
  revert fuel. induction s as [|c s IH]; intros fuel Hf H1 H2 H3.
  - by destruct fuel.
  - destruct fuel as [|fuel]; [simpl in Hf; lia|].
    cbn [Str.contains] in H1, H2, H3. cbn [String.length] in Hf.
    cbn [fnmatch.translate list_ascii_of_string].
    apply orb_false_elim in H1 as [H1 H1'], H2 as [H2 H2'], H3 as [H3 H3'].
    rewrite (Ascii.eqb_sym c "*"), H1, (Ascii.eqb_sym c "?"), H2,
      (Ascii.eqb_sym c "["), H3.
    rewrite IH by (try lia; assumption). reflexivity.
Qed.

Lemma glob_match_chars (p s : string) :
  fnmatch.glob_match (fnmatch.GChar <$> list_ascii_of_string p)
                     (list_ascii_of_string s) = bool_decide (s = p).
Proof.
  revert s. induction p as [|c p IH]; intros s; destruct s as [|d s]; simpl;
    try reflexivity.
  change (list_fmap ascii fnmatch.glob fnmatch.GChar (list_ascii_of_string p))
    with (fnmatch.GChar <$> list_ascii_of_string p).
  rewrite IH. destruct (Ascii.eqb_spec c d) as [-> | Hne]; simpl;
    repeat case_bool_decide; congruence.
Qed.

(** A pattern with none of the characters [*], [?] and [[] matches the
    name that is equal to it and no other. *)
Lemma fnmatch_plain (name pat : string) :
  Str.contains "*" pat = false → Str.contains "?" pat = false →
  Str.contains "[" pat = false →
  fnmatch.fnmatch name pat = bool_decide (name = pat).
Proof.
  intros H1 H2 H3. unfold fnmatch.fnmatch.
  rewrite translate_plain by (try lia; assumption).
  apply glob_match_chars.
Qed.

(** X10. Over SFTP, [file_exists] of a path whose last component has no
    wildcard character is an exact test: it is true when the listing of
    the parent has a regular file of exactly that name, and false
    otherwise; a directory of that name does not count. *)
Theorem file_exists_without_wildcard
    (w : World) (cid : string) (srv : Server) (path : string)
    (l : list SFTPAttributes) :
  servers w !! cid = Some srv →
  listings srv !! (Str.split path).1 = Some l →
  Str.contains "*" (Str.split path).2 = false →
  Str.contains "?" (Str.split path).2 = false →
  Str.contains "[" (Str.split path).2 = false →
  (call (new_hook CommonFTPSHook (Some cid)) (hook.file_exists path) w).1 =
  Ok (existsb (λ a, stat.S_ISREG (st_mode a) &&
                    bool_decide (filename a = (Str.split path).2)) l).
Proof.
  intros Hs Hl H1 H2 H3.
  rewrite (exists_check_value CommonFTPSHook (Some cid) false path w).
  unfold check_answer. rewrite (get_connection_known _ _ _ Hs), Hl. f_equal. clear Hl.
  induction l as [|a l IH]; [reflexivity|]. simpl.
  rewrite IH. by rewrite (fnmatch_plain _ _ H1 H2 H3).
Qed.

Lemma file_exists_without_wildcard_witness :
  (call (new_hook CommonFTPSHook (Some "phl-ftp-etl"))
        (hook.file_exists "/in/report_2024.csv") etl_world).1 = Ok true ∧
  (call (new_hook CommonFTPSHook (Some "phl-ftp-etl"))
        (hook.file_exists "/in") etl_world).1 = Ok false.
Proof.
  split.
  - rewrite (file_exists_without_wildcard etl_world "phl-ftp-etl" etl_server
               "/in/report_2024.csv" reports); reflexivity.
  - rewrite (file_exists_without_wildcard etl_world "phl-ftp-etl" etl_server
               "/in" [ {| filename := "in"; st_mode := 0x41ED |} ]); reflexivity.
Defined.

Lemma rstrip_slash_app_slash (s : string) :
  Str.rstrip_slash (s +:+ "/") = Str.rstrip_slash s.
Proof.
  induction s as [|c s IH]; [reflexivity|].
  simpl. by rewrite IH.
Qed.

(** X11. [folder_exists] does not see a slash at the end of the path:
    for every hook and from every state, the check of [path/] is the check
    of [path], in its result, in what it logs and in the state it leaves. *)
Theorem folder_exists_ignores_trailing_slash (path : string) (st : Hook * World) :
  hook.folder_exists (path +:+ "/") st = hook.folder_exists path st.
Proof.
  unfold hook.folder_exists, PySFTPHook.folder_exists.
  by rewrite rstrip_slash_app_slash.
Qed.

(** ** The SFTP connection *)

(** X12. [get_conn] connects once: when a call has returned a
    connection, the hook keeps it, and a later call from the state that
    call left returns the same connection and changes nothing, not the log
    either; the registry of connections is not read again. *)
Theorem get_conn_is_cached (st st' : Hook * World) (c : Connection) :
  PySFTPHook.get_conn st = (Ok c, st') →
  conn st'.1 = Some c ∧
  ∀ w, PySFTPHook.get_conn (st'.1, w) = (Ok c, (st'.1, w)).
Proof.
  unfold PySFTPHook.get_conn, BaseHook.get_connection. unfold_M.
  destruct st as [h w0]. simpl.
  destruct (conn h) as [c0|] eqn:Hc.
  - intros H. inversion H; subst; clear H. simpl. rewrite Hc.
    split; [reflexivity|]. intros w. reflexivity.
  - destruct (conn_id h) as [k|]; simpl; [|discriminate].
    destruct (servers w0 !! k) as [srv|]; simpl; [|discriminate].
    destruct (String.eqb (host srv) ""); simpl;
      intros H; inversion H; subst; clear H; simpl; split; reflexivity.
Qed.

Lemma get_conn_is_cached_witness :
  let st := (PySFTPHook.get_conn (new_hook CommonFTPSHook (Some "phl-ftp-etl"),
                                  etl_world)).2 in
  PySFTPHook.get_conn (st.1, bare_world) =
  (Ok {| remote := etl_server; cwd := "." |}, (st.1, bare_world)).
Proof.
  intros st.
  destruct (get_conn_is_cached (new_hook CommonFTPSHook (Some "phl-ftp-etl"), etl_world)
              st {| remote := etl_server; cwd := "." |}) as [_ H].
  - vm_compute. reflexivity.
  - apply H.
Defined.

(** ** Downloads over SFTP *)








(** ** The transform step, further *)

(** [transform] for any wiring of the streams: the argument vector and
    the input the command gets, where its output goes, and how its exit
    status is judged. *)
Lemma transform_run_any (exec : Executables) (self : FileTransformOperator.t)
    (f_source f_dest : string) (w : World) :
  let args := [FileTransformOperator.transform_script self] ++
              (if FileTransformOperator.use_stdin self then [] else [f_source]) ++
              (if FileTransformOperator.use_stdout self then [] else [f_dest]) in
  let input := if FileTransformOperator.use_stdin self
               then content_of f_source w else stdin w in
  let w1 := set_logs (λ l, l ++ ["Running the transformation script command: " +:+
                                 Str.join " " args]) w in
  FileTransformOperator.transform exec self f_source f_dest w =
  match exec args input (fs w) with
  | Raise e => (Raise e, w1)
  | Ok child =>
      let w2 := (if FileTransformOperator.use_stdout self
                 then set_fs (alter (λ n, match n with
                                          | File c => File (c ++ written child)
                                          | Dir => Dir
                                          end) f_dest)
                 else set_stdout (λ out, out ++ written child))
                  (set_fs (λ _, fs_after child) w1) in
      if 0 <? returncode (completed child)
      then (Raise (TypeError "must be str, not bytes"), w2)
      else (Ok tt,
            set_logs (λ l, l ++ ["Transform script successful. " +:+
                                 "Output temporarily located at " +:+ f_dest]) w2)
  end.
Proof.
  intros args input w1. subst args input w1.
  unfold FileTransformOperator.transform, subprocess_run, file_write, content_of.
  unfold_M. simpl.
  destruct (FileTransformOperator.use_stdin self),
    (FileTransformOperator.use_stdout self); simpl;
    match goal with
    | |- context [exec ?a ?i ?f] => destruct (exec a i f) as [child|e]
    end; simpl; try reflexivity;
    destruct (0 <? returncode (completed child)); reflexivity.
Qed.

(** What [transform] leaves of the disk when the command changes no
    file: the disk it found, but for the file its output went to. *)
Lemma transform_disk (exec : Executables) (self : FileTransformOperator.t)
    (f_source f_dest : string) (w : World) :
  (∀ args input files child, exec args input files = Ok child →
                             fs_after child = files) →
  delete f_dest (fs (FileTransformOperator.transform exec self f_source f_dest w).2) =
  delete f_dest (fs w).
Proof.
  intros Hex. rewrite transform_run_any. cbv zeta.
  match goal with
  | |- context [exec ?a ?i ?f] =>
      pose proof (Hex a i f) as Hc; destruct (exec a i f) as [child|e]
  end; [|reflexivity].
  specialize (Hc child eq_refl).
  destruct (0 <? returncode (completed child)),
    (FileTransformOperator.use_stdout self); simpl; rewrite Hc;
    rewrite ?delete_alter_eq; reflexivity.
Qed.

Lemma transfer_keeps_disk
    (exec : Executables) (self : FileTransformOperator.t)
    (source : list byte) (dest : list (list byte)) (w : World) :
  (∀ args input files child, exec args input files = Ok child →
                             fs_after child = files) →
  fs (FileTransformOperator.transfer exec self source (dest, w)).2.2 = fs w.
Proof.
  intros Hex. rewrite transfer_run. cbv zeta.
  set (f_source := fresh (dom (fs w))).
  set (w3 := set_fs _ (set_logs _ (set_fs (insert f_source (File [])) w))).
  set (f_dest := fresh (dom (fs w3))).
  set (w4 := set_fs (insert f_dest (File [])) w3).
  assert (Hsrc : fs w !! f_source = None) by apply fresh_lookup.
  assert (Hdst : fs w3 !! f_dest = None) by apply fresh_lookup.
  pose proof (transform_disk exec self f_source f_dest w4 Hex) as Hd.
  assert (Hend : delete f_source (delete f_dest (fs w4)) = fs w).
  { subst w4. simpl. rewrite delete_insert_eq, (delete_id _ f_dest) by exact Hdst.
    subst w3. simpl. rewrite delete_alter_eq, delete_insert_eq. by apply delete_id. }
  destruct (FileTransformOperator.transform exec self f_source f_dest w4)
    as [[[]|e] w5]; simpl in *; by rewrite Hd.
Qed.

(** X15. [transfer] of the transform operator gives the local disk back
    as it found it, on every way out: when the command ends well, when its
    exit status is above zero, and when it cannot be launched, for every
    wiring of the streams, provided the command itself changes no file.
    Both temporary files are gone. *)
Theorem transfer_removes_temporary_files
    (exec : Executables) (self : FileTransformOperator.t)
    (source : list byte) (dest : list (list byte)) (w : World) :
  (∀ args input files child, exec args input files = Ok child →
                             fs_after child = files) →
  fs (FileTransformOperator.transfer exec self source (dest, w)).2.2 = fs w.
Proof. apply transfer_keeps_disk. Qed.

Lemma transfer_removes_temporary_files_witness :
  fs (FileTransformOperator.transfer failing_machine clean_step [x61; x0a; x62]
        ([], disk_world)).2.2 = fs disk_world.
Proof.
  apply (transfer_removes_temporary_files failing_machine clean_step [x61; x0a; x62] []
           disk_world).
  intros args input files child H. injection H as <-. reflexivity.
Defined.

(** X16. An executable that cannot be launched: the exception of the
    launch is what [transfer] raises, for every wiring of the streams;
    nothing is written to [dest] and the disk is as it was. *)
Theorem transfer_launch_failure
    (exec : Executables) (self : FileTransformOperator.t)
    (source : list byte) (dest : list (list byte)) (w : World) (e : exn) :
  (∀ args input files, exec args input files = Raise e) →
  let r := FileTransformOperator.transfer exec self source (dest, w) in
  r.1 = Raise e ∧ r.2.1 = dest ∧ fs r.2.2 = fs w.
Proof.
  intros Hex r.
  assert (Hfs : fs r.2.2 = fs w).
  { apply transfer_keeps_disk. intros args input files child H.
    rewrite Hex in H. discriminate. }
  split; [|split; [|exact Hfs]]; subst r; rewrite transfer_run; cbv zeta;
    rewrite transform_run_any; cbv zeta; rewrite Hex; reflexivity.
Qed.

Lemma transfer_launch_failure_witness :
  let r := FileTransformOperator.transfer
             (λ _ _ _, Raise (OSError ENOENT "phl-properties"))
             clean_step [x61] ([], disk_world) in
  r.1 = Raise (OSError ENOENT "phl-properties") ∧ r.2.1 = [].
Proof.
  intros r.
  destruct (transfer_launch_failure (λ _ _ _, Raise (OSError ENOENT "phl-properties"))
              clean_step [x61] [] disk_world (OSError ENOENT "phl-properties"))
    as (H1 & H2 & _); [reflexivity|].
  split; assumption.
Defined.

(** X17. With the streams wired as they are by default, the step
    computes on the source what the command computes on its standard
    input: for a command that writes [out input] for the input it reads,
    leaves the files alone and ends with a status that is not above zero,
    [transfer] returns and the chunks written to [dest] are, put end to
    end, [out source]. A negative status, that of a command killed by a
    signal, counts as success like zero. *)
Theorem transfer_applies_the_command
    (exec : Executables) (self : FileTransformOperator.t)
    (out : list byte → list byte) (rc : Z)
    (source : list byte) (dest : list (list byte)) (w : World) :
  FileTransformOperator.use_stdin self = true →
  FileTransformOperator.use_stdout self = true →
  rc ≤ 0 →
  (∀ args input files, ∃ err,
     exec args input files = Ok {| completed := {| returncode := rc; stderr := err |};
                                   written := out input; fs_after := files |}) →
  let r := FileTransformOperator.transfer exec self source (dest, w) in
  r.1 = Ok tt ∧ List.concat r.2.1 = List.concat dest ++ out source.
Proof.
  intros Hi Ho Hrc Hex r. subst r.
  rewrite transfer_run. cbv zeta.
  set (f_source := fresh (dom (fs w))).
  set (w3 := set_fs _ (set_logs _ (set_fs (insert f_source (File [])) w))).
  set (f_dest := fresh (dom (fs w3))).
  set (w4 := set_fs (insert f_dest (File [])) w3).
  assert (Hdst : fs w3 !! f_dest = None) by apply fresh_lookup.
  assert (Hne : f_dest ≠ f_source).
  { intros E. rewrite E in Hdst. subst w3. simpl in Hdst.
    rewrite lookup_alter_eq, lookup_insert_eq in Hdst. discriminate. }
  assert (Hin : content_of f_source w4 = source).
  { unfold content_of. subst w4 w3. simpl.
    rewrite lookup_insert_ne by exact Hne.
    by rewrite lookup_alter_eq, lookup_insert_eq. }
  rewrite (transform_run exec self f_source f_dest w4 Hi Ho). cbv zeta.
  destruct (Hex [FileTransformOperator.transform_script self]
              (content_of f_source w4) (fs w4)) as [err He].
  rewrite He. simpl. rewrite Hin.
  apply Z.ltb_ge in Hrc. rewrite Hrc. simpl. split; [reflexivity|].
  rewrite concat_app. f_equal.
  unfold content_of. simpl.
  rewrite lookup_alter_eq, lookup_insert_eq. simpl.
  apply concat_readlines.
Qed.

Lemma transfer_applies_the_command_witness :
  let r := FileTransformOperator.transfer killing_machine clean_step [x61; x0a; x62]
             ([], disk_world) in
  r.1 = Ok tt ∧ List.concat r.2.1 = [x70; x61; x72; x74].
Proof.
  apply (transfer_applies_the_command killing_machine clean_step
           (λ _, [x70; x61; x72; x74]) (-9) [x61; x0a; x62] [] disk_world
           eq_refl eq_refl); [lia|].
  intros args input files. exists []. reflexivity.
Defined.

(** X18. With both wirings off ([use_stdin=False], [use_stdout=False])
    the command gets the names of the two temporary files as its first and
    second argument, in that order, and can read the one and write the
    other by these names: for a command that copies the file named first
    to the file named second and exits with 0, [transfer] returns and
    [dest] receives the bytes of the source. *)
Theorem transfer_by_file_names
    (exec : Executables) (self : FileTransformOperator.t)
    (source : list byte) (dest : list (list byte)) (w : World) :
  FileTransformOperator.use_stdin self = false →
  FileTransformOperator.use_stdout self = false →
  (∀ script a b input files c,
     files !! a = Some (File c) →
     exec [script; a; b] input files =
     Ok {| completed := {| returncode := 0; stderr := [] |};
           written := []; fs_after := <[b := File c]> files |}) →
  let r := FileTransformOperator.transfer exec self source (dest, w) in
  r.1 = Ok tt ∧ List.concat r.2.1 = List.concat dest ++ source ∧ fs r.2.2 = fs w.
Proof.
  intros Hi Ho Hex r. subst r.
  rewrite transfer_run. cbv zeta.
  set (f_source := fresh (dom (fs w))).
  set (w3 := set_fs _ (set_logs _ (set_fs (insert f_source (File [])) w))).
  set (f_dest := fresh (dom (fs w3))).
  set (w4 := set_fs (insert f_dest (File [])) w3).
  assert (Hsrc : fs w !! f_source = None) by apply fresh_lookup.
  assert (Hdst : fs w3 !! f_dest = None) by apply fresh_lookup.
  assert (Hne : f_dest ≠ f_source).
  { intros E. rewrite E in Hdst. subst w3. simpl in Hdst.
    rewrite lookup_alter_eq, lookup_insert_eq in Hdst. discriminate. }
  assert (Hin : fs w4 !! f_source = Some (File source)).
  { subst w4 w3. simpl. rewrite lookup_insert_ne by exact Hne.
    by rewrite lookup_alter_eq, lookup_insert_eq. }
  rewrite transform_run_any. cbv zeta. rewrite Hi, Ho. simpl app.
  rewrite (Hex _ f_source f_dest _ (fs w4) source Hin). simpl.
  repeat split.
  - rewrite concat_app. f_equal. unfold content_of. simpl.
    rewrite lookup_insert_eq. apply concat_readlines.
  - rewrite delete_insert_eq. subst w4. simpl.
    rewrite delete_insert_eq, (delete_id _ f_dest) by exact Hdst.
    subst w3. simpl. rewrite delete_alter_eq, delete_insert_eq. by apply delete_id.
Qed.

Lemma transfer_by_file_names_witness :
  let r := FileTransformOperator.transfer copy_machine path_step [x61; x0a; x62]
             ([], disk_world) in
  r.1 = Ok tt ∧ List.concat r.2.1 = [x61; x0a; x62] ∧ fs r.2.2 = fs disk_world.
Proof.
  apply (transfer_by_file_names copy_machine path_step [x61; x0a; x62] [] disk_world
           eq_refl eq_refl).
  intros script a b input files c H. simpl. by rewrite H.
Defined.

(** ** The plain transfer *)

Lemma readlines_nonempty (b : list byte) : Forall (λ chunk, chunk ≠ []) (readlines b).
Proof.
  induction b as [|c r IH]; simpl; [constructor|].
  destruct (Byte.eqb c x0a).
  - constructor; [discriminate | exact IH].
  - destruct (readlines r) as [|l ls].
    + constructor; [discriminate | constructor].
    + inversion IH; subst. constructor; [discriminate | assumption].
Qed.

Lemma readlines_length (b : list byte) :
  (List.length (readlines b) ≤ List.length b)%nat.
Proof.
  induction b as [|c r IH]; simpl; [lia|].
  destruct (Byte.eqb c x0a); simpl; [lia|].
  destruct (readlines r) as [|l ls]; simpl in *; lia.
Qed.

(** X19. [transfer] of the plain transfer operator writes the source to
    [dest] line by line: it returns, the chunks it adds to [dest] are, put
    end to end, exactly the bytes of the source, none of them is empty,
    and there are no more of them than bytes, so that an empty source adds
    no chunk at all. Beside its one log line the world is unchanged. *)
Theorem plain_transfer_copies_source
    (self : FileTransferOperator.t) (source : list byte)
    (dest : list (list byte)) (w : World) :
  ∃ chunks,
    FileTransferOperator.transfer self source (dest, w) =
    (Ok tt, (dest ++ chunks,
             set_logs (λ l, l ++ ["Transferring data from source to destination."]) w)) ∧
    List.concat chunks = source ∧
    Forall (λ chunk, chunk ≠ []) chunks ∧
    (List.length chunks ≤ List.length source)%nat.
Proof.
  exists (readlines source). split; [|split; [|split]].
  - unfold FileTransferOperator.transfer. unfold_M. simpl.
    by rewrite foreach_dest_write.
  - apply concat_readlines.
  - apply readlines_nonempty.
  - apply readlines_length.
Qed.

Lemma local_delete_by_kind_witness :
  let r := call (new_hook CommonFSHook None) (hook.delete "/tmp/stage") disk_world in
  r.1 = Ok tt ∧
  fs r.2 !! "/tmp/stage/sub/b.csv" = None ∧
  fs r.2 !! "/tmp/in.csv" = Some (File [x69; x6e]).
Proof.
  intros r.
  pose proof (local_delete_by_kind None disk_world "/tmp/stage" eq_refl eq_refl) as H.
  change (fs disk_world !! "/tmp/stage") with (Some Dir) in H.
  destruct H as (H1 & H2 & H3).
  split; [exact H1|]. split.
  - apply H2. right. reflexivity.
  - rewrite H3; [reflexivity | discriminate | reflexivity].
Defined.

(** ** Cleanup, further *)

Lemma local_delete_file (h : Hook) (w : World) (path : string) (c : list byte) :
  cls h = CommonFSHook →
  fs w !! path = Some (File c) →
  (log ("Deleting path " +:+ path);; hook.delete path) (h, w) =
  (Ok tt, (h, set_fs (delete path)
                (set_logs (λ l, l ++ ["Deleting path " +:+ path]) w))).
Proof.
  intros Hc Hp.
  unfold hook.delete, CommonFSHook.delete, isdir, unlink. unfold_M. simpl.
  rewrite Hc. simpl. rewrite Hp. simpl. by rewrite Hp.
Qed.

Lemma cleanup_loop_local (h : Hook) (l : list string) (w : World) :
  cls h = CommonFSHook →
  NoDup l →
  (∀ p, p ∈ l → ∃ c, fs w !! p = Some (File c)) →
  ∃ w',
    foreach l (λ path, log ("Deleting path " +:+ path);; hook.delete path) (h, w)
      = (Ok tt, (h, w')) ∧
    (∀ p, p ∈ l → fs w' !! p = None) ∧
    (∀ q, q ∉ l → fs w' !! q = fs w !! q) ∧
    logs w' = logs w ++ ((λ path, "Deleting path " +:+ path) <$> l).
Proof.
  intros Hc. revert w. induction l as [|x l IH]; intros w Hnd Hf.
  - exists w. simpl. repeat split; try done.
    + intros p Hp. by apply elem_of_nil in Hp.
    + by rewrite app_nil_r.
  - apply NoDup_cons in Hnd as [Hx Hnd].
    destruct (Hf x ltac:(left)) as [c Hxc].
    set (w1 := set_fs (delete x) (set_logs (λ l, l ++ ["Deleting path " +:+ x]) w)).
    destruct (IH w1 Hnd) as (w' & Hrun & Hgone & Hkept & Hlog).
    { intros p Hp. destruct (Hf p ltac:(by right)) as [cp Hcp].
      exists cp. subst w1. simpl. rewrite lookup_delete_ne; [exact Hcp|].
      intros ->. contradiction. }
    exists w'. repeat split.
    + cbn [foreach]. unfold mbind at 1. unfold M_bind at 1.
      rewrite (local_delete_file h w x c Hc Hxc). exact Hrun.
    + intros p Hp. apply elem_of_cons in Hp as [-> | Hp]; [|by apply Hgone].
      rewrite (Hkept x Hx). subst w1. simpl. apply lookup_delete_eq.
    + intros q Hq. apply not_elem_of_cons in Hq as [Hqx Hq].
      rewrite (Hkept q Hq). subst w1. simpl. by rewrite lookup_delete_ne.
    + rewrite Hlog. subst w1. simpl. by rewrite <- app_assoc.
Qed.

(** X20. On the local disk, a cleanup step whose paths are regular files
    of the disk, each listed once, returns: every listed path is gone,
    every other path of the disk is as it was, and the log has gained one
    line for each path, in the order of the list. *)
Theorem cleanup_local_deletes_listed_files
    (self : CleanupOperator.t) (l : list string) (w : World) :
  CleanupOperator.ConnHook self = CommonFSHook →
  CleanupOperator.paths self = CleanupOperator.ManyPaths l →
  NoDup l →
  (∀ p, p ∈ l → ∃ c, fs w !! p = Some (File c)) →
  ∃ w',
    CleanupOperator.execute self w = (Ok tt, w') ∧
    (∀ p, p ∈ l → fs w' !! p = None) ∧
    (∀ q, q ∉ l → fs w' !! q = fs w !! q) ∧
    logs w' = logs w ++ ((λ path, "Deleting path " +:+ path) <$> l).
Proof.
  intros Hc Hp Hnd Hf.
  destruct (cleanup_loop_local (new_hook (CleanupOperator.ConnHook self)
                                  (CleanupOperator.conn_id self)) l w)
    as (w' & Hrun & Hgone & Hkept & Hlog); try assumption.
  exists w'. repeat split; try assumption.
  unfold CleanupOperator.execute.
  rewrite call_run by (simpl; rewrite Hc; discriminate).
  unfold run_on. rewrite Hp, Hrun. reflexivity.
Qed.

Lemma cleanup_local_deletes_listed_files_witness :
  let self := {| CleanupOperator.conn_type := "local";
                 CleanupOperator.conn_id := None;
                 CleanupOperator.paths :=
                   CleanupOperator.ManyPaths ["/tmp/in.csv"; "/tmp/stage/a.csv"];
                 CleanupOperator.ConnHook := CommonFSHook |} in
  ∃ w', CleanupOperator.execute self disk_world = (Ok tt, w') ∧
        fs w' !! "/tmp/in.csv" = None ∧
        fs w' !! "/tmp/stage/sub/b.csv" = Some (File [x62]).
Proof.
  intros self.
  destruct (cleanup_local_deletes_listed_files self
              ["/tmp/in.csv"; "/tmp/stage/a.csv"] disk_world eq_refl eq_refl)
    as (w' & Hrun & Hgone & Hkept & _).
  - apply NoDup_cons. split; [|apply NoDup_singleton].
    intros Hp. apply elem_of_cons in Hp as [Hp | Hp]; [discriminate|].
    by apply elem_of_nil in Hp.
  - intros p Hp. apply elem_of_cons in Hp as [-> | Hp]; [by eexists|].
    apply elem_of_cons in Hp as [-> | Hp]; [by eexists|].
    by apply elem_of_nil in Hp.
  - exists w'. split; [exact Hrun|]. split.
    + apply Hgone. by left.
    + rewrite Hkept; [reflexivity|].
      intros Hp. apply elem_of_cons in Hp as [Hp | Hp]; [discriminate|].
      apply elem_of_cons in Hp as [Hp | Hp]; [discriminate|].
      by apply elem_of_nil in Hp.
Defined.

(** X21. A cleanup step on any hook class but the local one deletes
    nothing, and the disk is as it was. Over FTP and SFTP, with at least
    one path it logs the first and raises the [NotImplementedError] of the
    base class's [delete]; with no path at all it returns. The S3 step
    makes its hook before it logs anything: with no connection id, or with
    one that is not known, the constructor raises and the world is
    unchanged; with a known one, the step raises what connecting raises,
    and else does as the FTP step does. *)
Theorem cleanup_remote_is_not_implemented
    (self : CleanupOperator.t) (l : list string) (w : World) :
  CleanupOperator.ConnHook self ≠ CommonFSHook →
  CleanupOperator.paths self = CleanupOperator.ManyPaths l →
  let r := CleanupOperator.execute self w in
  fs r.2 = fs w ∧
  match CleanupOperator.ConnHook self with
  | CommonS3Hook =>
      match CleanupOperator.conn_id self with
      | None =>
          r = (Raise (AttributeError "'NoneType' object has no attribute 'upper'"), w)
      | Some k =>
          match servers w !! k with
          | None =>
              r = (Raise (AirflowException ("The conn_id `" +:+ k +:+
                                            "` isn't defined")), w)
          | Some srv =>
              r.1 = match s3_connect srv, l with
                    | Some e, _ => Raise e
                    | None, [] => Ok tt
                    | None, _ :: _ => Raise (NotImplementedError "")
                    end
          end
      end
  | _ =>
      r = match l with
          | [] => (Ok tt, w)
          | p :: _ => (Raise (NotImplementedError ""),
                       set_logs (λ lg, lg ++ ["Deleting path " +:+ p]) w)
          end
  end.
Proof.
  intros Hc Hp r. subst r. unfold CleanupOperator.execute. rewrite Hp.
  destruct (CleanupOperator.ConnHook self); [| | |by destruct Hc].
  1, 2: rewrite call_run by discriminate; unfold run_on;
    (destruct l as [|p l]; [by split|]);
    cbn [foreach]; unfold hook.delete, CommonFileHook.delete; unfold_M; simpl;
    by split.
  unfold call, construct, run_on, S3Hook.__init__, BaseHook.get_connection.
  unfold_M. simpl.
  destruct (CleanupOperator.conn_id self) as [k|]; [|by split].
  destruct (servers w !! k) as [srv|]; [|by split].
  destruct (String.eqb (host srv) ""); simpl;
    (destruct (s3_connect srv); [by split|]);
    (destruct l as [|p l]; [by split|]);
    cbn [foreach]; unfold hook.delete, CommonFileHook.delete; unfold_M; simpl;
    by split.
Qed.

(** An SFTP step with one path, and an S3 step that was given no
    connection id. *)
Lemma cleanup_remote_is_not_implemented_witness :
  CleanupOperator.execute
    {| CleanupOperator.conn_type := "sftp";
       CleanupOperator.conn_id := Some "phl-ftp-etl";
       CleanupOperator.paths := CleanupOperator.ManyPaths ["/in/report_2023.csv"];
       CleanupOperator.ConnHook := CommonFTPSHook |} disk_world =
    (Raise (NotImplementedError ""),
     set_logs (λ lg, lg ++ ["Deleting path /in/report_2023.csv"]) disk_world) ∧
  CleanupOperator.execute
    {| CleanupOperator.conn_type := "s3";
       CleanupOperator.conn_id := None;
       CleanupOperator.paths := CleanupOperator.ManyPaths ["bucket/key.csv"];
       CleanupOperator.ConnHook := CommonS3Hook |} disk_world =
    (Raise (AttributeError "'NoneType' object has no attribute 'upper'"), disk_world).
Proof.
  split.
  - exact (proj2 (cleanup_remote_is_not_implemented
                    {| CleanupOperator.conn_type := "sftp";
                       CleanupOperator.conn_id := Some "phl-ftp-etl";
                       CleanupOperator.paths :=
                         CleanupOperator.ManyPaths ["/in/report_2023.csv"];
                       CleanupOperator.ConnHook := CommonFTPSHook |}
                    ["/in/report_2023.csv"] disk_world
                    ltac:(discriminate) eq_refl)).
  - exact (proj2 (cleanup_remote_is_not_implemented
                    {| CleanupOperator.conn_type := "s3";
                       CleanupOperator.conn_id := None;
                       CleanupOperator.paths :=
                         CleanupOperator.ManyPaths ["bucket/key.csv"];
                       CleanupOperator.ConnHook := CommonS3Hook |}
                    ["bucket/key.csv"] disk_world
                    ltac:(discriminate) eq_refl)).
Defined.

(** ** The sensors, further *)

Lemma by_type_sftp_only (conn_type : string) :
  CommonFileHook.by_type conn_type = Ok CommonFTPSHook → conn_type = "sftp".
Proof.
  intros H.
  destruct (decide (conn_type = "sftp")) as [|N2]; [assumption|].
  destruct (decide (conn_type = "ftp")) as [->|N1]; [discriminate H|].
  destruct (decide (conn_type = "s3")) as [->|N3]; [discriminate H|].
  destruct (decide (conn_type = "local")) as [->|N4]; [discriminate H|].
  rewrite by_type_other in H by assumption. discriminate.
Qed.

Lemma poke_values (self : FileAvailabilitySensor.t) (w : World) :
  (FileAvailabilitySensor.poke self w).1 =
    (call (new_hook (FileAvailabilitySensor.SourceHook self)
                    (FileAvailabilitySensor.source_conn_id self))
          (hook.file_exists (FileAvailabilitySensor.source_path self)) w).1 ∧
  (FolderAvailabilitySensor.poke self w).1 =
    (call (new_hook (FileAvailabilitySensor.SourceHook self)
                    (FileAvailabilitySensor.source_conn_id self))
          (hook.folder_exists (FileAvailabilitySensor.source_path self)) w).1.
Proof.
  unfold FileAvailabilitySensor.poke, FolderAvailabilitySensor.poke,
    FileAvailabilitySensor.check_source, FolderAvailabilitySensor.check_source.
  destruct (sensor_check_run (FileAvailabilitySensor.SourceHook self)
              (FileAvailabilitySensor.source_conn_id self) false
              (FileAvailabilitySensor.source_path self) w
              ("Checking existence of file " +:+ FileAvailabilitySensor.source_path self +:+
               " on " +:+ FileAvailabilitySensor.source_type self +:+ " source " +:+
               Str.of_option (FileAvailabilitySensor.source_conn_id self) +:+ ".")
              "File exist." "File does not exist.") as (l1 & H1).
  destruct (sensor_check_run (FileAvailabilitySensor.SourceHook self)
              (FileAvailabilitySensor.source_conn_id self) true
              (FileAvailabilitySensor.source_path self) w
              ("Checking existence of folder " +:+ FileAvailabilitySensor.source_path self +:+
               " on " +:+ FileAvailabilitySensor.source_type self +:+ " source " +:+
               Str.of_option (FileAvailabilitySensor.source_conn_id self) +:+ ".")
              "Folder does not exist." "Folder exists.") as (l2 & H2).
  simpl in H1, H2. rewrite H1, H2. split; reflexivity.
Qed.

Lemma by_type_tag (conn_type : string) (h : HookClass) :
  CommonFileHook.by_type conn_type = Ok h →
  conn_type = match h with
              | CommonFTPHook => "ftp"
              | CommonFTPSHook => "sftp"
              | CommonS3Hook => "s3"
              | CommonFSHook => "local"
              end.
Proof.
  intros H.
  destruct (decide (conn_type = "sftp")) as [->|N2];
    [vm_compute in H; by injection H as <-|].
  destruct (decide (conn_type = "ftp")) as [->|N1];
    [vm_compute in H; by injection H as <-|].
  destruct (decide (conn_type = "s3")) as [->|N3];
    [vm_compute in H; by injection H as <-|].
  destruct (decide (conn_type = "local")) as [->|N4];
    [vm_compute in H; by injection H as <-|].
  rewrite by_type_other in H by assumption. discriminate.
Qed.

(** X22. A sensor built for any type but [sftp] never answers: for the
    types [ftp], [s3] and [local] the constructor of the sensor succeeds,
    and every [poke], of the file sensor and of the folder sensor, in
    every world, raises. For [ftp] and [local] it is the
    [NotImplementedError] of the base class. For [s3] it is what the
    constructor of the hook raises (no connection id, an id that is not
    known, a failed connection), and that [NotImplementedError] when the
    constructor returns. *)
Theorem sensor_needs_sftp
    (source_type source_path : string) (cid dest : option string)
    (self : FileAvailabilitySensor.t) (w : World) :
  FileAvailabilitySensor.__init__ source_type source_path cid dest = Ok self →
  source_type ≠ "sftp" →
  let e := if String.eqb source_type "s3"
           then match cid with
                | None => AttributeError "'NoneType' object has no attribute 'upper'"
                | Some k =>
                    match servers w !! k with
                    | None => AirflowException ("The conn_id `" +:+ k +:+
                                                "` isn't defined")
                    | Some srv => default (NotImplementedError "") (s3_connect srv)
                    end
                end
           else NotImplementedError "" in
  (FileAvailabilitySensor.poke self w).1 = Raise e ∧
  (FolderAvailabilitySensor.poke self w).1 = Raise e.
Proof.
  intros Hinit Hne e.
  unfold FileAvailabilitySensor.__init__ in Hinit.
  destruct (CommonFileHook.by_type source_type) as [h|e'] eqn:Hb; [|discriminate].
  injection Hinit as <-.
  destruct (poke_values
              {| FileAvailabilitySensor.source_type := source_type;
                 FileAvailabilitySensor.source_conn_id := cid;
                 FileAvailabilitySensor.source_path := source_path;
                 FileAvailabilitySensor.SourceHook := h |} w) as [H1 H2].
  rewrite H1, H2. simpl.
  apply by_type_tag in Hb. subst e.
  destruct h; subst source_type; [| by destruct Hne | |].
  - destruct (exists_check_run CommonFTPHook cid false source_path w) as (l1 & R1).
    destruct (exists_check_run CommonFTPHook cid true source_path w) as (l2 & R2).
    specialize (R1 []). specialize (R2 []). rewrite set_logs_nil in R1, R2.
    by rewrite R1, R2.
  - destruct (s3_call_base_method cid (hook.file_exists source_path) w) as [R1 _];
      [reflexivity|].
    destruct (s3_call_base_method cid (hook.folder_exists source_path) w) as [R2 _];
      [reflexivity|].
    by rewrite R1, R2.
  - destruct (exists_check_run CommonFSHook cid false source_path w) as (l1 & R1).
    destruct (exists_check_run CommonFSHook cid true source_path w) as (l2 & R2).
    specialize (R1 []). specialize (R2 []). rewrite set_logs_nil in R1, R2.
    by rewrite R1, R2.
Qed.

(** A sensor of the local type, and one of the type [s3] that was given
    no connection id. *)
Lemma sensor_needs_sftp_witness :
  (∃ self, FileAvailabilitySensor.__init__ "local" "/tmp/in.csv" None None = Ok self ∧
           (FileAvailabilitySensor.poke self disk_world).1 =
           Raise (NotImplementedError "")) ∧
  (∃ self, FileAvailabilitySensor.__init__ "s3" "bucket/key.csv" None None = Ok self ∧
           (FileAvailabilitySensor.poke self disk_world).1 =
           Raise (AttributeError "'NoneType' object has no attribute 'upper'")).
Proof.
  split; eexists; (split; [reflexivity|]).
  - apply (sensor_needs_sftp "local" "/tmp/in.csv" None None _ disk_world eq_refl).
    discriminate.
  - apply (sensor_needs_sftp "s3" "bucket/key.csv" None None _ disk_world eq_refl).
    discriminate.
Defined.

(** X23. An SFTP sensor whose connection id is not in the table of
    connections, or that was given none, does not answer [False]: every
    [poke] raises. For an id that is not known it is the
    [AirflowException] of the failed lookup; with no id, the lookup fails
    before that, when it asks [None] for the upper case of the id, with
    [AttributeError]. *)
Theorem sensor_unknown_connection_raises (self : FileAvailabilitySensor.t) (w : World) :
  FileAvailabilitySensor.SourceHook self = CommonFTPSHook →
  FileAvailabilitySensor.source_conn_id self ≫= (λ k, servers w !! k) = None →
  let e := match FileAvailabilitySensor.source_conn_id self with
           | None => AttributeError "'NoneType' object has no attribute 'upper'"
           | Some k => AirflowException ("The conn_id `" +:+ k +:+ "` isn't defined")
           end in
  (FileAvailabilitySensor.poke self w).1 = Raise e ∧
  (FolderAvailabilitySensor.poke self w).1 = Raise e.
Proof.
  intros Hc Hs e. subst e. destruct (poke_values self w) as [H1 H2]. rewrite H1, H2.
  rewrite (exists_check_value _ _ false), (exists_check_value _ _ true).
  rewrite Hc. unfold check_answer, BaseHook.get_connection. unfold_M.
  destruct (FileAvailabilitySensor.source_conn_id self) as [k|]; simpl in *;
    [rewrite Hs|]; by split.
Qed.

(** A sensor that was given no id, and one made for an id that the table
    of connections does not have. *)
Lemma sensor_unknown_connection_raises_witness :
  (FileAvailabilitySensor.poke
     {| FileAvailabilitySensor.source_type := "sftp";
        FileAvailabilitySensor.source_conn_id := None;
        FileAvailabilitySensor.source_path := "/in/report_*.csv";
        FileAvailabilitySensor.SourceHook := CommonFTPSHook |} etl_world).1 =
    Raise (AttributeError "'NoneType' object has no attribute 'upper'") ∧
  (FileAvailabilitySensor.poke
     {| FileAvailabilitySensor.source_type := "sftp";
        FileAvailabilitySensor.source_conn_id := Some "phl-ftp-dev";
        FileAvailabilitySensor.source_path := "/in/report_*.csv";
        FileAvailabilitySensor.SourceHook := CommonFTPSHook |} etl_world).1 =
    Raise (AirflowException "The conn_id `phl-ftp-dev` isn't defined").
Proof.
  split.
  - exact (proj1 (sensor_unknown_connection_raises
             {| FileAvailabilitySensor.source_type := "sftp";
                FileAvailabilitySensor.source_conn_id := None;
                FileAvailabilitySensor.source_path := "/in/report_*.csv";
                FileAvailabilitySensor.SourceHook := CommonFTPSHook |} etl_world
             eq_refl eq_refl)).
  - exact (proj1 (sensor_unknown_connection_raises
             {| FileAvailabilitySensor.source_type := "sftp";
                FileAvailabilitySensor.source_conn_id := Some "phl-ftp-dev";
                FileAvailabilitySensor.source_path := "/in/report_*.csv";
                FileAvailabilitySensor.SourceHook := CommonFTPSHook |} etl_world
             eq_refl eq_refl)).
Defined.

(** X24. An SFTP file sensor over a directory that the server lists
    answers by that listing: [poke] is [True] when some entry is a regular
    file whose name matches the last component of the path, and [False]
    when none is, an empty directory included; the folder sensor answers
    in the same way by the entries that are directories. *)
Theorem sftp_sensor_answers_by_listing
    (self : FileAvailabilitySensor.t) (w : World) (cid : string) (srv : Server) :
  FileAvailabilitySensor.SourceHook self = CommonFTPSHook →
  FileAvailabilitySensor.source_conn_id self = Some cid →
  servers w !! cid = Some srv →
  (∀ l, listings srv !! (Str.split (FileAvailabilitySensor.source_path self)).1 = Some l →
        (FileAvailabilitySensor.poke self w).1 =
        Ok (existsb (λ a, stat.S_ISREG (st_mode a) &&
                          fnmatch.fnmatch (filename a)
                            (Str.split (FileAvailabilitySensor.source_path self)).2) l)) ∧
  (∀ l, listings srv !! (Str.split (Str.rstrip_slash
                           (FileAvailabilitySensor.source_path self))).1 = Some l →
        (FolderAvailabilitySensor.poke self w).1 =
        Ok (existsb (λ a, stat.S_ISDIR (st_mode a) &&
                          fnmatch.fnmatch (filename a)
                            (Str.split (Str.rstrip_slash
                               (FileAvailabilitySensor.source_path self))).2) l)).
Proof.
  intros Hc Hid Hs. destruct (poke_values self w) as [H1 H2]. rewrite H1, H2.
  rewrite (exists_check_value _ _ false), (exists_check_value _ _ true).
  rewrite Hc, Hid. unfold check_answer. rewrite (get_connection_known _ _ _ Hs).
  split; intros l Hl; by rewrite Hl.
Qed.

Lemma sftp_sensor_answers_by_listing_witness :
  let self := {| FileAvailabilitySensor.source_type := "sftp";
                 FileAvailabilitySensor.source_conn_id := Some "phl-ftp-etl";
                 FileAvailabilitySensor.source_path := "/in/invoice_*.csv";
                 FileAvailabilitySensor.SourceHook := CommonFTPSHook |} in
  (FileAvailabilitySensor.poke self etl_world).1 = Ok false.
Proof.
  intros self.
  destruct (sftp_sensor_answers_by_listing self etl_world "phl-ftp-etl" etl_server
              eq_refl eq_refl eq_refl) as [H _].
  rewrite (H reports eq_refl). reflexivity.
Defined.

(** ** The download operator with a destination *)

(** X25. A file download step of the local type that was given a
    destination, both paths in their canonical spelling: when the source
    is a regular file and the destination another path, no directory, in a
    directory that exists, [execute] returns the destination path it was
    given, and the destination holds the bytes of the source, also when it
    held other bytes before: the step downloads with [replace] on. The
    rest of the disk is unchanged. *)
Theorem file_download_to_given_path
    (self : FileDownloadOperator.t) (w : World) (dest : string) (data : list byte) :
  FileDownloadOperator.SourceHook self = CommonFSHook →
  FileDownloadOperator.dest_path self = Some dest →
  Str.canonical (FileDownloadOperator.source_path self) = true →
  Str.canonical dest = true →
  fs w !! FileDownloadOperator.source_path self = Some (File data) →
  FileDownloadOperator.source_path self ≠ dest → dest ≠ "" →
  fs w !! dest ≠ Some Dir →
  isdir (Str.dirname dest) w = true →
  let r := FileDownloadOperator.execute self w in
  r.1 = Ok (Some dest) ∧ fs r.2 = <[dest := File data]> (fs w).
Proof.
  intros Hc Hd _ _ Hs Hne Hde Hnd Hp r. subst r.
  unfold FileDownloadOperator.execute, FileDownloadOperator.download_source,
    falsy, as_path, hook.download, CommonFSHook.download.
  rewrite Hd. apply String.eqb_neq in Hde as Hde'. rewrite Hde'.
  unfold_M. cbn -[copyfile]. rewrite Hd, Hc. cbn -[copyfile].
  match goal with
  | |- context [copyfile ?a ?b ?x] =>
      rewrite (copyfile_run a b data x Hs Hne Hde Hnd Hp)
  end.
  split; reflexivity.
Qed.

Lemma file_download_to_given_path_witness :
  let self := {| FileDownloadOperator.source_type := "local";
                 FileDownloadOperator.source_conn_id := None;
                 FileDownloadOperator.source_path := "/tmp/in.csv";
                 FileDownloadOperator.SourceHook := CommonFSHook;
                 FileDownloadOperator.dest_path := Some "/tmp/stage/a.csv" |} in
  let r := FileDownloadOperator.execute self disk_world in
  r.1 = Ok (Some "/tmp/stage/a.csv") ∧
  fs r.2 !! "/tmp/stage/a.csv" = Some (File [x69; x6e]).
Proof.
  intros self r.
  destruct (file_download_to_given_path self disk_world "/tmp/stage/a.csv" [x69; x6e])
    as [H1 H2]; try reflexivity; try discriminate.
  split; [exact H1|]. subst r. rewrite H2. apply lookup_insert_eq.
Defined.

(** ** Making directories *)

Lemma cut_last_slash_spec (p : string) :
  p = (Str.cut_last_slash p).1 +:+ (Str.cut_last_slash p).2 ∧
  Str.contains "/" (Str.cut_last_slash p).2 = false.
Proof.
  induction p as [|c r [IH1 IH2]]; [by split|].
  cbn [Str.cut_last_slash]. destruct (Str.cut_last_slash r) as [h t].
  cbn [fst snd] in *. destruct h as [|a h].
  - change (r = t) in IH1. subst t.
    destruct (Ascii.eqb_spec c "/") as [-> | Hc]; cbn [fst snd].
    + by split.
    + split; [reflexivity|]. cbn [Str.contains]. rewrite IH2, orb_false_r.
      apply Ascii.eqb_neq. congruence.
  - split; [|exact IH2]. rewrite IH1 at 1. reflexivity.
Qed.

Lemma rstrip_slash_noslash (t : string) :
  Str.contains "/" t = false → Str.rstrip_slash t = t.
Proof.
  induction t as [|c t IH]; [reflexivity|].
  cbn [Str.contains Str.rstrip_slash]. intros H.
  apply orb_false_elim in H as [Hc Ht]. rewrite (IH Ht).
  destruct t; [|reflexivity]. rewrite Ascii.eqb_sym in Hc. by rewrite Hc.
Qed.

Lemma rstrip_slash_app_noslash (h t : string) :
  t ≠ "" → Str.contains "/" t = false → Str.rstrip_slash (h +:+ t) = h +:+ t.
Proof.
  intros Hn Ht. induction h as [|a h IH].
  - by apply rstrip_slash_noslash.
  - change (String a h +:+ t) with (String a (h +:+ t)).
    cbn [Str.rstrip_slash]. rewrite IH. destruct (h +:+ t) eqn:E; [|reflexivity].
    destruct h; [contradiction | discriminate].
Qed.

Lemma rstrip_slash_length (s : string) :
  (String.length (Str.rstrip_slash s) ≤ String.length s)%nat.
Proof.
  induction s as [|c s IH]; simpl; [lia|].
  destruct (Str.rstrip_slash s); [destruct (Ascii.eqb c "/")|]; simpl in *; lia.
Qed.

Lemma length_append (a b : string) :
  String.length (a +:+ b) = (String.length a + String.length b)%nat.
Proof.
  induction a as [|c a IH]; [reflexivity|].
  change (String c a +:+ b) with (String c (a +:+ b)). simpl. by rewrite IH.
Qed.

(** A path whose last component is not empty has no slash at its end and
    is longer than its head. *)
Lemma split_tail_nonempty (d : string) :
  (Str.split d).2 ≠ "" →
  Str.rstrip_slash d = d ∧ (Str.split d).1 ≠ d.
Proof.
  unfold Str.split. destruct (cut_last_slash_spec d) as [H1 H2].
  destruct (Str.cut_last_slash d) as [h t]. simpl in *. intros Ht. split.
  - rewrite H1. by apply rstrip_slash_app_noslash.
  - intros E. apply (f_equal String.length) in E.
    rewrite H1, length_append in E.
    assert (String.length t ≠ 0%nat) by (destruct t; simpl; [contradiction | lia]).
    pose proof (rstrip_slash_length h).
    destruct (negb (String.eqb h "") && negb (Str.all_slashes h)); lia.
Qed.

(** [os.makedirs] of a path that is not there, in a directory that is:
    one [mkdir]. *)
Lemma os_makedirs_one (fuel : nat) (d : string) (w : World) :
  path_exists d w = false →
  (Str.split d).2 ≠ "" →
  (Str.split d).1 = "" ∨ isdir (Str.split d).1 w = true →
  os_makedirs fuel d w = (Ok tt, set_fs (insert d Dir) w).
Proof.
  intros He Ht Hh.
  assert (Hd : d ≠ "") by (intros ->; by apply Ht).
  destruct (split_tail_nonempty d Ht) as [Hr _].
  assert (Hmk : mkdir d w = (Ok tt, set_fs (insert d Dir) w)).
  { unfold mkdir. unfold_M. apply String.eqb_neq in Hd. rewrite Hd, He, Hr.
    unfold parent_error, Str.dirname.
    destruct Hh as [-> | Hh]; [reflexivity|].
    destruct (String.eqb (Str.split d).1 "" || Str.all_slashes (Str.split d).1);
      [reflexivity|].
    unfold isdir in Hh. by destruct (fs w !! (Str.split d).1) as [[|]|]. }
  assert (Hex : (Str.split d).1 = "" ∨ path_exists (Str.split d).1 w = true).
  { destruct Hh as [Hh | Hh]; [by left | right].
    unfold isdir in Hh. unfold path_exists.
    by destruct (fs w !! (Str.split d).1) as [[|]|]. }
  destruct fuel; simpl; destruct (Str.split d) as [h t]; simpl in *;
    apply String.eqb_neq in Ht; rewrite Ht; unfold_M;
    (destruct Hex as [-> | Hex];
     [simpl; exact Hmk | rewrite Hex, andb_false_r; exact Hmk]).
Qed.

(** X26. The plugin's [makedirs] makes what is missing: for a path in
    its canonical spelling that is not on the disk and whose parent is a
    directory of the disk, it makes the one directory; when the parent is
    missing too and the grandparent is there, it makes the parent first
    and then the path. In both cases it returns [True], with or without
    [exist_ok], and changes nothing else. *)
Theorem makedirs_makes_missing_directories (d : string) (exist_ok : bool) (w : World) :
  Str.canonical d = true →
  path_exists d w = false →
  (Str.split d).2 ≠ "" →
  (Str.split d).2 ≠ "." →
  ((Str.split d).1 = "" ∨ isdir (Str.split d).1 w = true →
   makedirs d exist_ok w = (Ok true, set_fs (insert d Dir) w)) ∧
  ((Str.split d).1 ≠ "" →
   path_exists (Str.split d).1 w = false →
   (Str.split (Str.split d).1).2 ≠ "" →
   (Str.split (Str.split d).1).1 = "" ∨
     isdir (Str.split (Str.split d).1).1 w = true →
   makedirs d exist_ok w =
   (Ok true, set_fs (λ m, <[d := Dir]> (<[(Str.split d).1 := Dir]> m)) w)).
Proof.
  intros _ He Ht Hdot. split.
  - intros Hh. unfold makedirs, try_except. unfold mbind at 1, M_bind.
    by rewrite (os_makedirs_one _ d w He Ht Hh).
  - intros Hh Hhe Hht Hhh.
    destruct (split_tail_nonempty d Ht) as [Hr Hne].
    assert (Hd : d ≠ "") by (intros ->; by apply Ht).
    set (h := (Str.split d).1) in *.
    set (w1 := set_fs (insert h Dir) w).
    assert (H1 : ∀ fuel, os_makedirs fuel h w = (Ok tt, w1))
      by (intros fuel; by apply os_makedirs_one).
    assert (H2 : mkdir d w1 = (Ok tt, set_fs (insert d Dir) w1)).
    { unfold mkdir. unfold_M. apply String.eqb_neq in Hd. rewrite Hd, Hr.
      assert (Hex1 : path_exists d w1 = false).
      { unfold path_exists in *. subst w1. simpl.
        rewrite lookup_insert_ne by exact Hne. exact He. }
      rewrite Hex1. unfold parent_error, Str.dirname. fold h.
      destruct (String.eqb h "" || Str.all_slashes h); [reflexivity|].
      subst w1. simpl. by rewrite lookup_insert_eq. }
    unfold makedirs, try_except. unfold mbind at 1, M_bind.
    assert (Hlen : ∃ n, String.length d = S n).
    { destruct d; [contradiction | by eexists]. }
    destruct Hlen as [n ->]. cbn [os_makedirs].
    fold h. destruct (Str.split d) as [h0 t] eqn:Hsp. simpl in h, Ht, Hdot.
    subst h. apply String.eqb_neq in Ht, Hh, Hdot. rewrite Ht.
    unfold_M. rewrite Hh, Ht, Hhe. simpl. rewrite H1. simpl.
    rewrite Hdot. rewrite H2. reflexivity.
Qed.

Lemma makedirs_makes_missing_directories_witness :
  makedirs "/tmp/out" true disk_world =
    (Ok true, set_fs (insert "/tmp/out" Dir) disk_world) ∧
  makedirs "/tmp/new/out" true disk_world =
    (Ok true, set_fs (λ m, <["/tmp/new/out" := Dir]> (<["/tmp/new" := Dir]> m))
                disk_world).
Proof.
  split.
  - destruct (makedirs_makes_missing_directories "/tmp/out" true disk_world)
      as [H _]; [reflexivity | reflexivity | discriminate | discriminate |].
    apply H. right. reflexivity.
  - destruct (makedirs_makes_missing_directories "/tmp/new/out" true disk_world)
      as [_ H]; [reflexivity | reflexivity | discriminate | discriminate |].
    apply H; [discriminate | reflexivity | discriminate | right; reflexivity].
Defined.

(** ** Steps of the S3 type *)

(** X27. The download steps of the type [s3] can be built and cannot
    run: with a destination given, [execute] of the file step and of the
    folder step raises, and the disk is left as it was. What is raised is
    the error of the hook's constructor (no connection id, an id that is
    not known, a failed connection) and, when the constructor returns, the
    [NotImplementedError] of the base class, the S3 hook having no
    [download] and no [download_folder]. *)
Theorem s3_download_steps_not_implemented
    (path dest : string) (cid : option string)
    (f : FileDownloadOperator.t) (d : FolderDownloadOperator.t) (w : World) :
  FileDownloadOperator.__init__ "s3" path cid (Some dest) = Ok f →
  FolderDownloadOperator.__init__ "s3" path cid (Some dest) = Ok d →
  dest ≠ "" →
  let e := match cid with
           | None => AttributeError "'NoneType' object has no attribute 'upper'"
           | Some k =>
               match servers w !! k with
               | None => AirflowException ("The conn_id `" +:+ k +:+ "` isn't defined")
               | Some srv => default (NotImplementedError "") (s3_connect srv)
               end
           end in
  (FileDownloadOperator.execute f w).1 = Raise e ∧
  fs (FileDownloadOperator.execute f w).2 = fs w ∧
  (FolderDownloadOperator.execute d w).1 = Raise e ∧
  fs (FolderDownloadOperator.execute d w).2 = fs w.
Proof.
  intros Hf Hd Hne e.
  vm_compute in Hf, Hd. injection Hf as <-. injection Hd as <-.
  apply String.eqb_neq in Hne.
  unfold FileDownloadOperator.execute, FolderDownloadOperator.execute,
    FileDownloadOperator.download_source, FolderDownloadOperator.download_source,
    falsy, as_path.
  cbn [FileDownloadOperator.dest_path FolderDownloadOperator.dest_path]. rewrite Hne.
  unfold mbind, M_bind, mret, M_ret, logging_info, modify.
  cbn [FileDownloadOperator.dest_path FolderDownloadOperator.dest_path
       FileDownloadOperator.SourceHook FolderDownloadOperator.SourceHook
       FileDownloadOperator.source_conn_id FolderDownloadOperator.source_conn_id
       FileDownloadOperator.source_path FolderDownloadOperator.source_path
       FileDownloadOperator.source_type FolderDownloadOperator.source_type].
  repeat match goal with
  | |- context [call (new_hook CommonS3Hook cid) ?m ?w0] =>
      let R1 := fresh "R" in
      let R2 := fresh "R" in
      let r1 := fresh "r" in
      let w1 := fresh "w" in
      destruct (s3_call_base_method cid m w0) as [R1 R2]; [reflexivity|];
      destruct (call (new_hook CommonS3Hook cid) m w0) as [r1 w1];
      simpl in R1, R2; subst r1
  end.
  simpl. by repeat split.
Qed.

(** The file step made for an id that the table of connections does not
    have. *)
Lemma s3_download_steps_not_implemented_witness :
  ∃ f, FileDownloadOperator.__init__ "s3" "bucket/key.csv" (Some "phl-s3-etl")
         (Some "/tmp/key.csv") = Ok f ∧
       (FileDownloadOperator.execute f disk_world).1 =
       Raise (AirflowException "The conn_id `phl-s3-etl` isn't defined").
Proof.
  eexists. split; [reflexivity|].
  apply (s3_download_steps_not_implemented "bucket/key.csv" "/tmp/key.csv"
           (Some "phl-s3-etl") _ _ disk_world eq_refl eq_refl).
  discriminate.
Defined.

(** ** What the sensors log *)

Lemma sensor_check_last (c : HookClass) (cid : option string) (folder : bool)
    (path : string) (w : World) (before yes no : string) (b : bool) :
  ((logging_info before;;
    found ← call (new_hook c cid)
                 (if folder then hook.folder_exists path else hook.file_exists path);
    if found : bool then logging_info yes;; mret true
    else logging_info no;; mret false) w).1 = Ok b →
  last (logs ((logging_info before;;
    found ← call (new_hook c cid)
                 (if folder then hook.folder_exists path else hook.file_exists path);
    if found : bool then logging_info yes;; mret true
    else logging_info no;; mret false) w).2) = Some (if b then yes else no).
Proof.
  destruct (exists_check_run c cid folder path w) as (lines & Hrun).
  specialize (Hrun [before]).
  unfold mbind, M_bind, logging_info, modify, mret, M_ret. rewrite Hrun. clear Hrun.
  match goal with
  | |- context [match ?r with Ok _ => _ | Raise _ => _ end] => destruct r as [[|]|e]
  end; simpl; intros H; try discriminate; injection H as <-;
    rewrite ?app_assoc; apply last_snoc.
Qed.

(** X28. The last line a sensor logs goes with what it returns, and for
    the folder sensor the wording is the reverse of the result: when its
    [poke] returns [True] the line says that the folder does not exist,
    and when it returns [False], that the folder exists. The file sensor
    logs that the file exists with [True] and that it does not with
    [False]. *)
Theorem sensor_log_wording (self : FileAvailabilitySensor.t) (w : World) (b : bool) :
  ((FileAvailabilitySensor.poke self w).1 = Ok b →
   last (logs (FileAvailabilitySensor.poke self w).2) =
   Some (if b then "File exist." else "File does not exist.")) ∧
  ((FolderAvailabilitySensor.poke self w).1 = Ok b →
   last (logs (FolderAvailabilitySensor.poke self w).2) =
   Some (if b then "Folder does not exist." else "Folder exists.")).
Proof.
  split.
  - apply (sensor_check_last (FileAvailabilitySensor.SourceHook self)
             (FileAvailabilitySensor.source_conn_id self) false).
  - apply (sensor_check_last (FileAvailabilitySensor.SourceHook self)
             (FileAvailabilitySensor.source_conn_id self) true).
Qed.

Lemma sensor_log_wording_witness :
  let self := {| FileAvailabilitySensor.source_type := "sftp";
                 FileAvailabilitySensor.source_conn_id := Some "phl-ftp-etl";
                 FileAvailabilitySensor.source_path := "/in/";
                 FileAvailabilitySensor.SourceHook := CommonFTPSHook |} in
  last (logs (FolderAvailabilitySensor.poke self etl_world).2) =
  Some "Folder does not exist.".
Proof.
  intros self.
  apply (proj2 (sensor_log_wording self etl_world true)).
  vm_compute. reflexivity.
Defined.
